(** * Schedule aggregation of the sports-management dashboard

    A shallow embedding of the schedule code of the player and coach pages
    ([app/player/schedules/page.tsx], [app/coach/schedules/page.tsx] and the
    player dashboard), with the properties of the merged, time-ordered
    schedule view.

    Layout: the JavaScript values and built-ins the pages use ([JS]), the
    query builder and responses of the backend client ([Supabase]), one
    module per page, then the theorems. *)

From Stdlib Require Import ZArith Lia Sorted Permutation Ascii.
From stdpp Require Import gmap strings list fin_maps pretty.

Local Open Scope string_scope.
#[local] Set Warnings "-register-all".

(** ** JavaScript values, objects and the built-ins used by the pages *)

Module JS.

(** The values a JSON row can hold. Numbers that occur in the modelled code
    are integral (time values in milliseconds), so [VNum] carries a [Z]. *)
Inductive value : Type :=
  | VUndefined
  | VNull
  | VBool (b : bool)
  | VNum (n : Z)
  | VStr (s : string).

#[global] Instance value_eq_dec : EqDecision value.
Proof. solve_decision. Defined.

(** A row (and every object built from one with the spread syntax) is a
    finite map from property names to values. *)
Abbreviation Row := (gmap string value).

(** [o.k]: reading an absent property gives [undefined]. *)
Definition get (o : Row) (k : string) : value := default VUndefined (o !! k).

(** [a === b] *)
Definition strict_eq (a b : value) : bool := bool_decide (a = b).

(** ToBoolean, as used by [if (x)], [x && y] and [x || y]. *)
Definition truthy (v : value) : bool :=
  match v with
  | VUndefined | VNull => false
  | VBool b => b
  | VNum n => negb (n =? 0)%Z
  | VStr s => negb (String.eqb s "")
  end.

(** *** Dates *)

(** The largest time value of a Date, 8.64e15 ms. *)
Definition maxTime : Z := 8640000000000000.

Section Date.
(** [Date.parse] on strings: the time value in milliseconds, or [None] for
    NaN. The pages rely on the host's parser, so it is a parameter. *)
Variable Date_parse : string -> option Z.

(** [new Date(v).getTime()]; [None] is NaN. [new Date(null)] is the epoch,
    [new Date(undefined)] is an invalid date. *)
Definition getTime (v : value) : option Z :=
  match v with
  | VUndefined => None
  | VNull => Some 0%Z
  | VBool b => Some (if b then 1 else 0)%Z
  | VNum n => if bool_decide (- maxTime <= n <= maxTime)%Z then Some n else None
  | VStr s => Date_parse s
  end.

(** [new Date(a.start_time).getTime() - new Date(b.start_time).getTime()],
    the comparator of every schedule sort; NaN when either side is. Only
    the sign of the difference is used by the sort. *)
Definition byStartTime (a b : Row) : option Z :=
  match getTime (get a "start_time"), getTime (get b "start_time") with
  | Some x, Some y => Some (x - y)%Z
  | _, _ => None
  end.

(** [new Date(timestamp) > now], with [now] the time value of [new Date()];
    a comparison with NaN is false. *)
Definition dateAfter (timestamp : value) (now : Z) : bool :=
  match getTime timestamp with
  | Some t => (now <? t)%Z
  | None => false
  end.
End Date.

(** *** Arrays *)

(** SortCompare of [Array.prototype.sort]: a NaN result of the comparator
    counts as +0. *)
Definition SortCompare {A} (comparefn : A -> A -> option Z) (x y : A) : Z :=
  default 0%Z (comparefn x y).

Fixpoint insert {A} (comparefn : A -> A -> option Z) (x : A) (l : list A) : list A :=
  match l with
  | [] => [x]
  | y :: l' =>
      if (SortCompare comparefn x y <=? 0)%Z then x :: y :: l'
      else y :: insert comparefn x l'
  end.

(** [arr.sort(comparefn)]. The sort is stable (ECMAScript 2019), so with a
    consistent comparator its result is the one stable sorted arrangement;
    it is computed here by insertion from the right. *)
Definition sort {A} (comparefn : A -> A -> option Z) (arr : list A) : list A :=
  foldr (insert comparefn) [] arr.

(** [arr.slice(0, n)] *)
Definition slice0 {A} (n : nat) (arr : list A) : list A := take n arr.

(** [rows.forEach(x => acc.push(f x))] *)
Definition forEach_push {A B} (f : A -> B) (rows : list A) (acc : list B) : list B :=
  foldl (fun acc x => (acc ++ [f x])%list) acc rows.

(** *** Strings *)

(** [s.includes(t)] *)
Fixpoint includes (s t : string) : bool :=
  String.prefix t s ||
  match s with
  | EmptyString => false
  | String _ s' => includes s' t
  end.

End JS.

(** ** The backend client: query builder, responses, data source *)

Module Supabase.
Import JS.

(** [PostgrestError]; [code] is the SQLSTATE, ["42P01"] for a missing table. *)
Record PostgrestError : Type := mkError { message : string; code : string }.

(** The awaited result of a query: [{ data, error }], where exactly one of
    the two is [null]. The client does not reject the promise of a query:
    a failure of any kind comes back as [error]. *)
Inductive PostgrestResponse : Type :=
  | Success (rows : list Row)
  | Failure (e : PostgrestError).

Definition data (r : PostgrestResponse) : option (list Row) :=
  match r with Success rows => Some rows | Failure _ => None end.

Definition error (r : PostgrestResponse) : option PostgrestError :=
  match r with Success _ => None | Failure e => Some e end.

(** The result of [supabase.auth.getUser()]: [{ data: { user }, error }]. *)
Record AuthResponse : Type := mkAuth { user : option Row; authError : option string }.

(** Filters of the builder. [Or] is the [.or('a.eq.x,b.eq.y')] form. *)
Inductive Filter : Type :=
  | Eq (column : string) (v : value)
  | Gte (column : string) (v : value)
  | Or (clauses : list Filter).

Record Query : Type := mkQuery {
  table : string;
  columns : string;
  filters : list Filter;
  ordering : list (string * bool);
  rowLimit : option nat
}.

Definition from (t : string) : Query := mkQuery t "" [] [] None.

Definition select (cols : string) (q : Query) : Query :=
  mkQuery (table q) cols (filters q) (ordering q) (rowLimit q).

Definition addFilter (f : Filter) (q : Query) : Query :=
  mkQuery (table q) (columns q) (filters q ++ [f])%list (ordering q) (rowLimit q).

Definition eq (column : string) (v : value) : Query -> Query := addFilter (Eq column v).
Definition gte (column : string) (v : value) : Query -> Query := addFilter (Gte column v).
Definition or (clauses : list Filter) : Query -> Query := addFilter (Or clauses).

Definition order (column : string) (ascending : bool) (q : Query) : Query :=
  mkQuery (table q) (columns q) (filters q) (ordering q ++ [(column, ascending)])%list (rowLimit q).

Definition limit (n : nat) (q : Query) : Query :=
  mkQuery (table q) (columns q) (filters q) (ordering q) (Some n).

(** [q .m(args)] of a builder chain. *)
Notation "q '|>' m" := (m q) (at level 45, left associativity, only parsing).

(** [.single()]: the one row of the result, an error when the query failed
    or did not return exactly one row. *)
Definition single (r : PostgrestResponse) : option Row * option PostgrestError :=
  match r with
  | Success [row] => (Some row, None)
  | Success _ => (None, Some (mkError "JSON object requested, multiple (or no) rows returned" "PGRST116"))
  | Failure e => (None, Some e)
  end.

(** *** The data source *)

Section DataSource.
Variable Date_parse : string -> option Z.

(** Modelled from the spec: the comparison of a column with a filter value
    in the data source (section 6, equality filter); a SQL NULL or an
    absent column equals nothing. *)
Definition sql_eq (a b : value) : bool :=
  match a, b with
  | VStr x, VStr y => String.eqb x y
  | VNum x, VNum y => (x =? y)%Z
  | VBool x, VBool y => Bool.eqb x y
  | _, _ => false
  end.

(** Modelled from the spec: a timestamp column as the data source compares
    it (section 6, range filter on a timestamp field); NULL has no time. *)
Definition sql_time (v : value) : option Z :=
  match v with VStr s => Date_parse s | _ => None end.

(** Modelled from the spec: when a row satisfies a filter expression
    (section 6: equality, OR-combination, greater-or-equal on a
    timestamp). *)
Fixpoint matches (f : Filter) (row : Row) : bool :=
  match f with
  | Eq c v => sql_eq (get row c) v
  | Gte c v =>
      match sql_time (get row c), sql_time v with
      | Some t, Some t0 => (t0 <=? t)%Z
      | _, _ => false
      end
  | Or clauses => existsb (fun f' => matches f' row) clauses
  end.

(** Modelled from the spec: the filters of a query are combined with AND
    (section 6, [filters]). *)
Definition matchesAll (q : Query) (row : Row) : bool :=
  forallb (fun f => matches f row) (filters q).

(** Modelled from the spec: ordering by a timestamp field (section 6,
    [orderBy]); rows without a time come last in ascending order. *)
Definition compareColumn (o : string * bool) (a b : Row) : option Z :=
  let d := match sql_time (get a (fst o)), sql_time (get b (fst o)) with
           | Some x, Some y => (x - y)%Z
           | Some _, None => (-1)%Z
           | None, Some _ => 1%Z
           | None, None => 0%Z
           end in
  Some (if snd o then d else (- d)%Z).

(** Modelled from the spec: the rows in the order asked for, the first
    ordering being the major one (section 6, [orderBy]). *)
Definition applyOrder (os : list (string * bool)) (rows : list Row) : list Row :=
  foldr (fun o rs => sort (compareColumn o) rs) rows os.

(** Modelled from the spec: at most [limit] rows, from the front (section
    6, [limit]). *)
Definition applyLimit (n : option nat) (rows : list Row) : list Row :=
  match n with Some k => take k rows | None => rows end.

(** The tables of the data source; [None] for a table that does not
    exist. *)
Definition Database : Type := string -> option (list Row).

(** Modelled from the spec: [queryRows] of the data source collaborator
    (section 6): the rows of the table that match the filters, ordered,
    at most [limit] of them; a query on a missing table fails. *)
Definition queryRows (db : Database) (q : Query) : PostgrestResponse :=
  match db (table q) with
  | None => Failure (mkError "relation does not exist" "42P01")
  | Some rows =>
      Success (applyLimit (rowLimit q)
                 (applyOrder (ordering q) (List.filter (matchesAll q) rows)))
  end.
End DataSource.

(** *** The browser console *)

Inductive ConsoleEntry : Type :=
  | ConsoleError (label : string) (e : PostgrestError)
  | ConsoleWarn (label : string) (e : PostgrestError).

End Supabase.

(** ** The player's schedule page, [app/player/schedules/page.tsx] *)

Module PlayerSchedules.
Import JS Supabase.

Inductive ActiveFilter : Type := all | practice | meeting | game.

(** The string behind each value of the union type
    ['all' | 'practice' | 'meeting' | 'game']. *)
Definition filterName (f : ActiveFilter) : string :=
  match f with
  | all => "all"
  | practice => "practice"
  | meeting => "meeting"
  | game => "game"
  end.

(** The component state ([useState]) and the console. *)
Record State : Type := mkState {
  playerTeam : option Row;
  schedules : list Row;
  loading : bool;
  error : option string;
  activeFilter : ActiveFilter;
  console : list ConsoleEntry
}.

Definition setPlayerTeam (t : option Row) (st : State) : State :=
  mkState t (schedules st) (loading st) (error st) (activeFilter st) (console st).
Definition setSchedules (l : list Row) (st : State) : State :=
  mkState (playerTeam st) l (loading st) (error st) (activeFilter st) (console st).
Definition setLoading (b : bool) (st : State) : State :=
  mkState (playerTeam st) (schedules st) b (error st) (activeFilter st) (console st).
Definition setError (e : option string) (st : State) : State :=
  mkState (playerTeam st) (schedules st) (loading st) e (activeFilter st) (console st).
Definition setActiveFilter (f : ActiveFilter) (st : State) : State :=
  mkState (playerTeam st) (schedules st) (loading st) (error st) f (console st).

(** [if (err) console.error(label, err)] *)
Definition logError (label : string) (err : option PostgrestError) (st : State) : State :=
  match err with
  | Some e =>
      mkState (playerTeam st) (schedules st) (loading st) (error st) (activeFilter st)
        (console st ++ [ConsoleError label e])%list
  | None => st
  end.

(** The state of the component when it is first rendered. *)
Definition initial : State := mkState None [] true None all [].

(** The three source queries of [loadData] (l. 94-112). *)
Definition practiceQuery (teamId : value) : Query :=
  from "practice_schedules" |> select "*" |> eq "team_id" teamId
    |> order "start_time" true.

Definition meetingQuery (teamId : value) : Query :=
  from "meeting_schedules" |> select "*" |> eq "team_id" teamId
    |> order "start_time" true.

Definition gameQuery (teamId : value) : Query :=
  from "schedules" |> select "*"
    |> or [Eq "team1_id" teamId; Eq "team2_id" teamId]
    |> order "start_time" true.

(** [{ ...schedule, type: 'practice', source_table: 'practice_schedules' }] *)
Definition tagPractice (schedule : Row) : Row :=
  <["source_table" := VStr "practice_schedules"]> (<["type" := VStr "practice"]> schedule).

Definition tagMeeting (schedule : Row) : Row :=
  <["source_table" := VStr "meeting_schedules"]> (<["type" := VStr "meeting"]> schedule).

(** [{ ...schedule, type: 'game', source_table: 'schedules',
       team_id: currentTeam.id }] *)
Definition tagGame (currentTeam : Row) (schedule : Row) : Row :=
  <["team_id" := get currentTeam "id"]>
    (<["source_table" := VStr "schedules"]> (<["type" := VStr "game"]> schedule)).

(** [if (rows) rows.forEach(s => allSchedules.push(f s))] *)
Definition pushAll (f : Row -> Row) (rows : option (list Row)) (allSchedules : list Row) : list Row :=
  match rows with
  | Some rs => forEach_push f rs allSchedules
  | None => allSchedules
  end.

Section Page.
Variable Date_parse : string -> option Z.
(** The backend as the page sees it during one call: the answer to
    [getUser] and to each query. *)
Variable getUser : AuthResponse.
Variable supabase : Query -> PostgrestResponse.

(** The comparator of l. 157-159. *)
Definition compareStart (a b : Row) : option Z := byStartTime Date_parse a b.

(** Steps 1 to 4 of [loadData] (l. 47-83): the message of the [setError]
    that ends the call early, or the player's team ([null] when none). *)
Definition findTeam : string + option Row :=
  match authError getUser with
  | Some msg => inl ("Authentication error: " +:+ msg)
  | None =>
  match user getUser with
  | None => inl "Please log in to access this page"
  | Some u =>
  match fst (single (supabase (from "user_profiles" |> select "*" |> eq "user_id" (get u "id")))) with
  | None => inl "Player profile not found. Please contact administrator."
  | Some playerProfile =>
      if negb (strict_eq (get playerProfile "role") (VStr "player"))
      then inl "You are not authorized as a player."
      else
        let teams := data (supabase (from "teams" |> select "*")) in
        inr (match teams with
             | Some ts => find (fun t => strict_eq (get t "id") (get playerProfile "team_id")) ts
             | None => None
             end)
  end end end.

(** Step 5 of [loadData] (l. 87-161): the three queries, the log of their
    errors, the merge and the sort. *)
Definition loadTeamSchedules (currentTeam : Row) (st : State) : State :=
  let practiceRes := supabase (practiceQuery (get currentTeam "id")) in
  let meetingRes := supabase (meetingQuery (get currentTeam "id")) in
  let gameRes := supabase (gameQuery (get currentTeam "id")) in
  let st := logError "Practice schedules error:" (Supabase.error practiceRes) st in
  let st := logError "Meeting schedules error:" (Supabase.error meetingRes) st in
  let st := logError "Game schedules error:" (Supabase.error gameRes) st in
  let allSchedules := [] in
  let allSchedules := pushAll tagPractice (data practiceRes) allSchedules in
  let allSchedules := pushAll tagMeeting (data meetingRes) allSchedules in
  let allSchedules := pushAll (tagGame currentTeam) (data gameRes) allSchedules in
  let sortedSchedules := sort compareStart allSchedules in
  setSchedules sortedSchedules st.

(** [loadData] (l. 42-172). No step of the [try] block throws, so the
    [catch] is never entered; [finally] resets [loading]. *)
Definition loadData (st : State) : State :=
  let st := setError None (setLoading true st) in
  let st :=
    match findTeam with
    | inl msg => setError (Some msg) st
    | inr currentTeam =>
        let st := setPlayerTeam currentTeam st in
        match currentTeam with
        | Some team => loadTeamSchedules team st
        | None => setSchedules [] st
        end
    end in
  setLoading false st.

(** [filteredSchedules] (l. 175-178) *)
Definition filteredSchedules (st : State) : list Row :=
  List.filter
    (fun schedule =>
       match activeFilter st with
       | all => true
       | f => strict_eq (get schedule "type") (VStr (filterName f))
       end)
    (schedules st).

(** [isUpcoming] (l. 212-216); [now] is the time value of [new Date()]. *)
Definition isUpcoming (now : Z) (timestamp : value) : bool :=
  dateAfter Date_parse timestamp now.

(** The list of cards (l. 382-383): each displayed event with its
    [upcoming] flag. [isUpcoming] reads the clock at each call; one render
    is taken to happen at the single instant [now]. *)
Definition cards (now : Z) (events : list Row) : list (Row * bool) :=
  map (fun schedule => (schedule, isUpcoming now (get schedule "start_time"))) events.

(** The events shown as 'Upcoming' and those shown with the 'Past Event'
    badge ([!upcoming], l. 406), in display order. *)
Definition partitionByTime (now : Z) (events : list Row) : list Row * list Row :=
  (map fst (List.filter (fun c => snd c) (cards now events)),
   map fst (List.filter (fun c => negb (snd c)) (cards now events))).
End Page.

End PlayerSchedules.

(** ** The coach's schedule page, [app/coach/schedules/page.tsx] *)

Module CoachSchedules.
Import JS Supabase.

(** [CombinedSchedule] (l. 50-60). [type] holds one of the strings
    ['practice'], ['meeting'], ['game']; [subtype] is an optional property. *)
Record CombinedSchedule : Type := mkCombined {
  id : value;
  type : string;
  title : value;
  description : value;
  start_time : value;
  end_time : value;
  location : value;
  subtype : option value;
  originalData : Row
}.

(** [FilterType] (l. 62) *)
Inductive FilterType : Type := all | practice | meeting | game.

Definition filterName (f : FilterType) : string :=
  match f with
  | all => "all"
  | practice => "practice"
  | meeting => "meeting"
  | game => "game"
  end.

Record State : Type := mkState {
  schedules : list CombinedSchedule;
  loading : bool;
  error : option string;
  filter : FilterType;
  searchTerm : string;
  console : list ConsoleEntry
}.

Definition setSchedules (l : list CombinedSchedule) (st : State) : State :=
  mkState l (loading st) (error st) (filter st) (searchTerm st) (console st).
Definition setLoading (b : bool) (st : State) : State :=
  mkState (schedules st) b (error st) (filter st) (searchTerm st) (console st).
Definition setError (e : option string) (st : State) : State :=
  mkState (schedules st) (loading st) e (filter st) (searchTerm st) (console st).
Definition log (entry : ConsoleEntry) (st : State) : State :=
  mkState (schedules st) (loading st) (error st) (filter st) (searchTerm st)
    (console st ++ [entry])%list.

Definition initial : State := mkState [] true None all "" [].

(** The three queries of [fetchAllSchedules] (l. 139-163). *)
Definition practiceQuery (teamId : string) : Query :=
  from "practice_schedules" |> select "*" |> eq "team_id" (VStr teamId)
    |> order "start_time" true.

Definition meetingQuery (teamId : string) : Query :=
  from "meeting_schedules" |> select "*" |> eq "team_id" (VStr teamId)
    |> order "start_time" true.

Definition gameQuery (teamId : string) : Query :=
  from "game_schedules" |> select "*" |> eq "team_id" (VStr teamId)
    |> order "start_time" true.

(** The object literals of l. 175-184, 191-201 and 208-217. *)
Definition ofPractice (practice : Row) : CombinedSchedule :=
  mkCombined (get practice "id") "practice" (get practice "title")
    (get practice "description") (get practice "start_time")
    (get practice "end_time") (get practice "location") None practice.

Definition ofMeeting (meeting : Row) : CombinedSchedule :=
  mkCombined (get meeting "id") "meeting" (get meeting "title")
    (get meeting "description") (get meeting "start_time")
    (get meeting "end_time") (get meeting "location")
    (Some (get meeting "meeting_type")) meeting.

Definition ofGame (game : Row) : CombinedSchedule :=
  mkCombined (get game "id") "game" (get game "title")
    (get game "description") (get game "start_time")
    (get game "end_time") (get game "location") None game.

Definition pushAll (f : Row -> CombinedSchedule) (rows : option (list Row))
    (combinedSchedules : list CombinedSchedule) : list CombinedSchedule :=
  match rows with
  | Some rs => forEach_push f rs combinedSchedules
  | None => combinedSchedules
  end.

(** [if (err && err.code !== '42P01') console.warn(label, err)] *)
Definition warnUnlessMissingTable (label : string) (err : option PostgrestError) (st : State) : State :=
  match err with
  | Some e => if negb (String.eqb (code e) "42P01") then log (ConsoleWarn label e) st else st
  | None => st
  end.

Section Page.
Variable Date_parse : string -> option Z.
Variable supabase : Query -> PostgrestResponse.

(** The comparator of l. 222-224. *)
Definition compareStart (a b : CombinedSchedule) : option Z :=
  match getTime Date_parse (start_time a), getTime Date_parse (start_time b) with
  | Some x, Some y => Some (x - y)%Z
  | _, _ => None
  end.

(** The [try] block of [fetchAllSchedules] (l. 138-226): the thrown error,
    or the state after [setSchedules]. The queries are awaited one after
    the other, and a failed practice query throws before the next one. *)
Definition fetchAllSchedules_try (teamId : string) (st : State) : PostgrestError + State :=
  let practiceRes := supabase (practiceQuery teamId) in
  match Supabase.error practiceRes with
  | Some practiceError => inl practiceError
  | None =>
      let meetingRes := supabase (meetingQuery teamId) in
      let st := warnUnlessMissingTable "Meeting schedules error:" (Supabase.error meetingRes) st in
      let gameRes := supabase (gameQuery teamId) in
      let st := warnUnlessMissingTable "Game schedules error:" (Supabase.error gameRes) st in
      let combinedSchedules := [] in
      let combinedSchedules := pushAll ofPractice (data practiceRes) combinedSchedules in
      let combinedSchedules := pushAll ofMeeting (data meetingRes) combinedSchedules in
      let combinedSchedules := pushAll ofGame (data gameRes) combinedSchedules in
      let combinedSchedules := sort compareStart combinedSchedules in
      inr (setSchedules combinedSchedules st)
  end.

(** [fetchAllSchedules] (l. 136-234) with its [catch] and [finally]. *)
Definition fetchAllSchedules (teamId : string) (st : State) : State :=
  let st :=
    match fetchAllSchedules_try teamId st with
    | inr st' => st'
    | inl err =>
        setError (Some "Failed to load schedules.")
          (log (ConsoleError "Error fetching schedules:" err) st)
    end in
  setLoading false st.
End Page.

Section Filter.
(** [String.prototype.toLowerCase], a parameter. *)
Variable toLowerCase : string -> string.

(** [v?.toLowerCase().includes(searchLower) || false] (l. 387-388);
    [None] is the TypeError of calling [toLowerCase] on a value that has
    no such method. *)
Definition optionalIncludes (v : value) (searchLower : string) : option bool :=
  match v with
  | VUndefined | VNull => Some false
  | VStr s => Some (includes (toLowerCase s) searchLower)
  | VBool _ | VNum _ => None
  end.

(** The predicate of [filteredSchedules] (l. 376-393); [None] when it
    throws. *)
Definition keep (filter : FilterType) (searchTerm : string) (schedule : CombinedSchedule) : option bool :=
  if match filter with all => false | _ => true end
     && negb (String.eqb (type schedule) (filterName filter))
  then Some false
  else if negb (String.eqb searchTerm "") then
    let searchLower := toLowerCase searchTerm in
    match title schedule with
    | VStr t =>
        if includes (toLowerCase t) searchLower then Some true
        else
          match optionalIncludes (description schedule) searchLower with
          | None => None
          | Some true => Some true
          | Some false => optionalIncludes (location schedule) searchLower
          end
    | _ => None
    end
  else Some true.

(** [arr.filter(p)] for a predicate that can throw. *)
Fixpoint filterM {A} (p : A -> option bool) (arr : list A) : option (list A) :=
  match arr with
  | [] => Some []
  | x :: arr' =>
      match p x with
      | None => None
      | Some b =>
          match filterM p arr' with
          | None => None
          | Some r => Some (if b then x :: r else r)
          end
      end
  end.

(** [filteredSchedules] (l. 376-393) *)
Definition filteredSchedules (st : State) : option (list CombinedSchedule) :=
  filterM (keep (filter st) (searchTerm st)) (schedules st).
End Filter.

End CoachSchedules.

(** ** The player dashboard (second unit of [app/player/teammates/page.tsx]) *)

Module PlayerDashboard.
Import JS Supabase.

Record State : Type := mkState {
  playerTeam : option Row;
  teammates : list Row;
  upcomingEvents : list Row;
  announcements : list Row;
  loading : bool
}.

Definition setPlayerTeam (t : option Row) (st : State) : State :=
  mkState t (teammates st) (upcomingEvents st) (announcements st) (loading st).
Definition setTeammates (l : list Row) (st : State) : State :=
  mkState (playerTeam st) l (upcomingEvents st) (announcements st) (loading st).
Definition setUpcomingEvents (l : list Row) (st : State) : State :=
  mkState (playerTeam st) (teammates st) l (announcements st) (loading st).
Definition setAnnouncements (l : list Row) (st : State) : State :=
  mkState (playerTeam st) (teammates st) (upcomingEvents st) l (loading st).
Definition setLoading (b : bool) (st : State) : State :=
  mkState (playerTeam st) (teammates st) (upcomingEvents st) (announcements st) b.

Definition initial : State := mkState None [] [] [] true.

(** The three source queries of [fetchPlayerData] (l. 339-363);
    [currentDate] is [new Date().toISOString()]. *)
Definition practiceQuery (teamId : value) (currentDate : string) : Query :=
  from "practice_schedules" |> select "*" |> eq "team_id" teamId
    |> gte "start_time" (VStr currentDate)
    |> order "start_time" true |> limit 10.

Definition meetingQuery (teamId : value) (currentDate : string) : Query :=
  from "meeting_schedules" |> select "*" |> eq "team_id" teamId
    |> gte "start_time" (VStr currentDate)
    |> order "start_time" true |> limit 10.

Definition gameQuery (teamId : value) (currentDate : string) : Query :=
  from "schedules" |> select "*"
    |> or [Eq "team1_id" teamId; Eq "team2_id" teamId]
    |> gte "start_time" (VStr currentDate)
    |> order "start_time" true |> limit 10.

(** [{ ...event, type: 'practice' }] and its two siblings. *)
Definition tagType (t : string) (event : Row) : Row := <["type" := VStr t]> event.

(** [if (rows && rows.length > 0) rows.forEach(e => allEvents.push(f e))] *)
Definition pushAll (f : Row -> Row) (rows : option (list Row)) (allEvents : list Row) : list Row :=
  match rows with
  | Some rs => if (0 <? length rs)%nat then forEach_push f rs allEvents else allEvents
  | None => allEvents
  end.

Section Page.
Variable Date_parse : string -> option Z.
Variable getUser : AuthResponse.
Variable supabase : Query -> PostgrestResponse.
Variable currentDate : string.

(** Step 5 of [fetchPlayerData] (l. 329-404). *)
Definition fetchUpcomingEvents (team : Row) (st : State) : State :=
  let practiceSchedules := data (supabase (practiceQuery (get team "id") currentDate)) in
  let meetingSchedules := data (supabase (meetingQuery (get team "id") currentDate)) in
  let gameSchedules := data (supabase (gameQuery (get team "id") currentDate)) in
  let allEvents := [] in
  let allEvents := pushAll (tagType "practice") practiceSchedules allEvents in
  let allEvents := pushAll (tagType "meeting") meetingSchedules allEvents in
  let allEvents := pushAll (tagType "game") gameSchedules allEvents in
  let sortedEvents := slice0 5 (sort (byStartTime Date_parse) allEvents) in
  setUpcomingEvents sortedEvents st.

(** Steps 1 to 3 (l. 295-316): the team of the logged-in player, when the
    call gets that far. *)
Definition findTeam : option (Row * Row) :=
  match user getUser with
  | None => None
  | Some u =>
  match fst (single (supabase (from "user_profiles" |> select "*" |> eq "user_id" (get u "id")))) with
  | None => None
  | Some playerProfile =>
      if truthy (get playerProfile "team_id") then
        match fst (single (supabase (from "teams" |> select "*" |> eq "id" (get playerProfile "team_id")))) with
        | Some team => Some (u, team)
        | None => None
        end
      else None
  end end.

(** [fetchPlayerData] (l. 293-425) *)
Definition fetchPlayerData (st : State) : State :=
  let st :=
    match findTeam with
    | None => st
    | Some (u, team) =>
        let st := setPlayerTeam (Some team) st in
        let teamPlayers :=
          data (supabase (from "user_profiles" |> select "*"
                            |> eq "role" (VStr "player") |> eq "team_id" (get team "id"))) in
        let otherPlayers :=
          match teamPlayers with
          | Some ps => List.filter (fun player => negb (strict_eq (get player "user_id") (get u "id"))) ps
          | None => []
          end in
        let st := setTeammates otherPlayers st in
        let st := fetchUpcomingEvents team st in
        let announcementsData :=
          data (supabase (from "announcements"
                            |> select "*, author:user_profiles(first_name, last_name)"
                            |> eq "team_id" (get team "id")
                            |> order "created_at" false |> limit 3)) in
        setAnnouncements (default [] announcementsData) st
    end in
  setLoading false st.
End Page.

End PlayerDashboard.

(** ** A concrete date parser for the examples *)

Module IsoDate.

Definition digit (a : Ascii.ascii) : option Z :=
  let n := Z.of_nat (Ascii.nat_of_ascii a) in
  if bool_decide (48 <= n <= 57)%Z then Some (n - 48)%Z else None.

(** The number read from the decimal digits [l]. *)
Fixpoint number (acc : Z) (l : list Ascii.ascii) : option Z :=
  match l with
  | [] => Some acc
  | a :: l' => match digit a with Some d => number (10 * acc + d) l' | None => None end
  end.

(** Days from 1970-01-01 to the given civil date (proleptic Gregorian). *)
Definition daysFromCivil (y m d : Z) : Z :=
  let y' := (if m <=? 2 then y - 1 else y)%Z in
  let era := (y' / 400)%Z in
  let yoe := (y' - era * 400)%Z in
  let mp := ((m + 9) mod 12)%Z in
  let doy := ((153 * mp + 2) / 5 + d - 1)%Z in
  let doe := (yoe * 365 + yoe / 4 - yoe / 100 + doy)%Z in
  (era * 146097 + doe - 719468)%Z.

(** [Date.parse] on the format [YYYY-MM-DDTHH:MM:SSZ]; every other string
    is rejected. *)
Definition parse (s : string) : option Z :=
  match String.list_ascii_of_string s with
  | [y1; y2; y3; y4; "-"; m1; m2; "-"; d1; d2; "T"; h1; h2; ":"; i1; i2; ":"; s1; s2; "Z"]%char =>
      match number 0 [y1; y2; y3; y4], number 0 [m1; m2], number 0 [d1; d2],
            number 0 [h1; h2], number 0 [i1; i2], number 0 [s1; s2] with
      | Some y, Some m, Some d, Some h, Some i, Some sec =>
          if bool_decide (1 <= m <= 12 /\ 1 <= d <= 31 /\ h <= 23 /\ i <= 59 /\ sec <= 59)%Z
          then Some ((((daysFromCivil y m d * 24 + h) * 60 + i) * 60 + sec) * 1000)%Z
          else None
      | _, _, _, _, _, _ => None
      end
  | _ => None
  end.

End IsoDate.

(** ** Strings: the built-ins used by the forms and the cards *)

Module Text.

(** Strings are sequences of bytes (UTF-8). The code modelled here tests
    single ASCII characters only, and takes lengths and slices of strings
    that hold ASCII characters only, so code units and bytes agree. *)

(** [\d] *)
Definition isDigit (a : ascii) : bool :=
  (48 <=? nat_of_ascii a)%nat && (nat_of_ascii a <=? 57)%nat.

(** [[\d+]] *)
Definition isDigitOrPlus (a : ascii) : bool := isDigit a || Ascii.eqb a "+".

(** [s.replace(/[^…]/g, '')] for a character class [p]: the characters of
    [s] that are in the class. *)
Fixpoint keepChars (p : ascii -> bool) (s : string) : string :=
  match s with
  | EmptyString => EmptyString
  | String a r => if p a then String a (keepChars p r) else keepChars p r
  end.

Fixpoint allChars (p : ascii -> bool) (s : string) : bool :=
  match s with
  | EmptyString => true
  | String a r => p a && allChars p r
  end.

(** The character [c] does not occur in [s]. *)
Definition lacks (c : ascii) (s : string) : bool :=
  allChars (fun a => negb (Ascii.eqb a c)) s.

(** [s.startsWith(p)] *)
Definition startsWith (s p : string) : bool := String.prefix p s.

(** [s.slice(1)] *)
Definition slice1 (s : string) : string :=
  match s with
  | EmptyString => EmptyString
  | String _ r => r
  end.

(** [s.split(sep)] for a separator of one character; the result is never
    empty. *)
Fixpoint split (sep : ascii) (s : string) : list string :=
  match s with
  | EmptyString => [EmptyString]
  | String a r =>
      if Ascii.eqb a sep then EmptyString :: split sep r
      else match split sep r with
           | p :: ps => String a p :: ps
           | [] => [String a EmptyString]
           end
  end.

(** [parts.join(sep)] *)
Fixpoint join (sep : string) (parts : list string) : string :=
  match parts with
  | [] => EmptyString
  | [p] => p
  | p :: ps => p +:+ sep +:+ join sep ps
  end.

(** The numbers [parseInt] can return: NaN, an infinity, or an integer. *)
Inductive number : Type :=
  | NaN
  | Infinity (negative : bool)
  | Int (n : Z).

(** [String(n)] for an integer below 10^21 in absolute value: its decimal
    digits. *)
Definition showInt (n : Z) : string := pretty n.

End Text.

(** ** The profile form (second unit of [app/player/schedules/page.tsx]) *)

Module PlayerProfileEdit.
Import JS Supabase Text.

(** [FormData] (l. 521-524) *)
Record FormData : Type := mkForm { phone_number : string; email : string }.

(** [formatPhoneNumber] (l. 546-562) *)
Definition formatPhoneNumber (phone : string) : string :=
  let cleanPhone := keepChars isDigit phone in
  let cleanPhone :=
    if startsWith cleanPhone "0" then "63" +:+ slice1 cleanPhone else cleanPhone in
  let cleanPhone :=
    if negb (startsWith cleanPhone "63") && (0 <? String.length cleanPhone)%nat
    then "63" +:+ cleanPhone else cleanPhone in
  let cleanPhone :=
    if (0 <? String.length cleanPhone)%nat && negb (startsWith cleanPhone "+")
    then "+" +:+ cleanPhone else cleanPhone in
  cleanPhone.

(** [handlePhoneChange] (l. 565-585); [value] is [e.target.value]. *)
Definition handlePhoneChange (value : string) (prev : FormData) : FormData :=
  let clean := keepChars isDigitOrPlus value in
  let formatted :=
    if startsWith clean "+63" then clean
    else if startsWith clean "63" then "+" +:+ clean
    else if startsWith clean "0" && (String.length clean <=? 11)%nat
         then "+63" +:+ slice1 clean
    else clean in
  if (String.length formatted <=? 13)%nat
  then mkForm formatted (email prev)
  else prev.

(** What [handleSubmit] does to the outside, in order. *)
Inductive Effect : Type :=
  | Alert (msg : string)
  | RouterPush (path : string)
  | LogError (label msg : string)
  | UpdateEmail (email : string)
  | UpdateProfile (phone_number : value) (updated_at : string) (user_id : value).

Section Submit.
(** The answers of the backend: the logged-in user, the error message of
    [auth.updateUser] and the error of the profile update, if any; and
    [nowIso], which is [new Date().toISOString()]. *)
Variable user : option Row.
Variable updateUser : string -> option string.
Variable updateProfile : value -> value -> option PostgrestError.
Variable nowIso : string.

(** The [catch] block (l. 676-678). *)
Definition failed (msg : string) : list Effect :=
  [LogError "Error updating profile:" msg;
   Alert (if String.eqb msg "" then "Failed to update profile" else msg)].

(** The phone part of [handleSubmit] (l. 654-674), after the effects [done]
    of the e-mail part. *)
Definition savePhone (u : Row) (formData : FormData) (done : list Effect) : list Effect :=
  let formattedPhone := formatPhoneNumber (phone_number formData) in
  if negb (String.eqb formattedPhone "") && negb (startsWith formattedPhone "+63")
  then (done ++ [Alert "Please enter a valid Philippines phone number starting with +63"])%list
  else
    let phone := if String.eqb formattedPhone "" then VNull else VStr formattedPhone in
    let done := (done ++ [UpdateProfile phone nowIso (get u "id")])%list in
    match updateProfile phone (get u "id") with
    | Some profileError => (done ++ failed (message profileError))%list
    | None => (done ++ [Alert "Profile updated successfully!"; RouterPush "/player/profile"])%list
    end.

(** [handleSubmit] (l. 631-682): the effects of one submission. [loading]
    is set at the start and reset on every path. *)
Definition handleSubmit (formData : FormData) : list Effect :=
  match user with
  | None => [RouterPush "/login"]
  | Some u =>
      if negb (strict_eq (VStr (email formData)) (get u "email")) then
        match updateUser (email formData) with
        | Some msg =>
            if includes msg "already registered"
            then [UpdateEmail (email formData);
                  Alert "This email is already registered. Please use a different email."]
            else (UpdateEmail (email formData) :: failed msg)
        | None =>
            savePhone u formData
              [UpdateEmail (email formData);
               Alert "Verification email sent! Please check your inbox to confirm your new email."]
        end
      else savePhone u formData []
  end.
End Submit.

End PlayerProfileEdit.

(** ** The cards of the player's schedule page *)

Module PlayerScheduleCards.
Import JS Supabase Text.

(** [getDateFromTimestamp] (l. 181-183) *)
Definition getDateFromTimestamp (timestamp : string) : string :=
  match split "T" timestamp with
  | date :: _ => date
  | [] => EmptyString
  end.

(** [getTimeFromTimestamp] (l. 186-188); [None] is [undefined]. *)
Definition getTimeFromTimestamp (timestamp : string) : option string :=
  match split "T" timestamp with
  | _ :: time :: _ => Some (join ":" (take 2 (split ":" time)))
  | _ => None
  end.

Section FormatTime.
(** [parseInt] on strings, a parameter. *)
Variable parseInt : string -> number.

(** [hour >= 12 ? 'PM' : 'AM'] *)
Definition period (hour : number) : string :=
  match hour with
  | Int n => if (12 <=? n)%Z then "PM" else "AM"
  | Infinity false => "PM"
  | _ => "AM"
  end.

(** [hour % 12 || 12]: the remainder has the sign of [hour]; zero and NaN
    give 12. *)
Definition displayHour (hour : number) : Z :=
  match hour with
  | Int n => if (Z.rem n 12 =? 0)%Z then 12%Z else Z.rem n 12
  | _ => 12%Z
  end.

(** [formatTime] (l. 202-209); the argument is [undefined] or a string. *)
Definition formatTime (timeString : option string) : string :=
  match timeString with
  | None => "TBD"
  | Some s =>
      if String.eqb s "" then "TBD"
      else
        let parts := split ":" s in
        let hours := default EmptyString (head parts) in
        let minutes := default "undefined" (parts !! 1%nat) in
        let hour := parseInt hours in
        showInt (displayHour hour) +:+ ":" +:+ minutes +:+ " " +:+ period hour
  end.
End FormatTime.

(** [getTypeLabel] (l. 233-242) *)
Definition getTypeLabel (schedule : Row) : value :=
  if strict_eq (get schedule "type") (VStr "practice") then VStr "Practice"
  else if strict_eq (get schedule "type") (VStr "meeting") then
    (if truthy (get schedule "meeting_type") then get schedule "meeting_type"
     else VStr "Meeting")
  else if strict_eq (get schedule "type") (VStr "game") then
    (if strict_eq (get schedule "schedule_type") (VStr "scrimmage") then VStr "Scrimmage"
     else if strict_eq (get schedule "schedule_type") (VStr "tournament") then VStr "Tournament"
     else VStr "Game")
  else VStr "Event".

(** The counts on the filter buttons (l. 315, 324, 333, 342):
    [schedules.filter(s => s.type === t).length]. *)
Definition countOfType (t : string) (schedules : list Row) : nat :=
  length (List.filter (fun s => strict_eq (get s "type") (VStr t)) schedules).

End PlayerScheduleCards.

(** ** The list of the coach's schedule page: groups, counts, deletion *)

Module CoachScheduleList.
Import JS Supabase CoachSchedules.

(** The object [groups] of l. 396-403: its keys in insertion order, each
    with its array. (The keys are the results of [toDateString]; none of
    them is an array index or a property of [Object.prototype].) *)
Definition Groups : Type := list (string * list CombinedSchedule).

(** [groups[date]] *)
Fixpoint lookupGroup (date : string) (groups : Groups) : option (list CombinedSchedule) :=
  match groups with
  | [] => None
  | (d, l) :: groups' => if String.eqb d date then Some l else lookupGroup date groups'
  end.

(** [if (!groups[date]) groups[date] = []; groups[date].push(schedule)] *)
Fixpoint pushTo (date : string) (schedule : CombinedSchedule) (groups : Groups) : Groups :=
  match groups with
  | [] => [(date, [schedule])]
  | (d, l) :: groups' =>
      if String.eqb d date then (d, (l ++ [schedule])%list) :: groups'
      else (d, l) :: pushTo date schedule groups'
  end.

Section Grouping.
Variable Date_parse : string -> option Z.
(** [new Date(v).toDateString()], a parameter: it depends on the time zone
    of the browser. *)
Variable toDateString : value -> string.

(** [groupedSchedules] (l. 396-403) *)
Definition groupedSchedules (filteredSchedules : list CombinedSchedule) : Groups :=
  foldl (fun groups schedule => pushTo (toDateString (start_time schedule)) schedule groups)
    [] filteredSchedules.

(** The comparator of l. 406-408. *)
Definition compareDates (a b : string) : option Z :=
  match Date_parse a, Date_parse b with
  | Some x, Some y => Some (x - y)%Z
  | _, _ => None
  end.

(** [sortedDates] (l. 406-408) *)
Definition sortedDates (filteredSchedules : list CombinedSchedule) : list string :=
  sort compareDates (map fst (groupedSchedules filteredSchedules)).

(** The cards in the order of the page (l. 577, 591):
    [sortedDates.map(date => groupedSchedules[date].map(card))]. *)
Definition renderedSchedules (filteredSchedules : list CombinedSchedule) : list CombinedSchedule :=
  flat_map
    (fun date => default [] (lookupGroup date (groupedSchedules filteredSchedules)))
    (sortedDates filteredSchedules).
End Grouping.

(** The counts of the header and of the footer (l. 482-495, 700-716):
    [schedules.filter(s => s.type === t).length]. *)
Definition countOfType (t : string) (schedules : list CombinedSchedule) : nat :=
  length (List.filter (fun s => String.eqb (type s) t) schedules).

(** What [handleDeleteSchedule] does to the outside, in order. *)
Inductive Effect : Type :=
  | DeleteFrom (table id : string)
  | Alert (msg : string).

Section Delete.
Variable Date_parse : string -> option Z.
(** The answer to the [confirm] dialog, the error of the delete request if
    any, and the backend as the refetch sees it. *)
Variable confirm : bool.
Variable delete : string -> string -> option PostgrestError.
Variable supabase : Query -> PostgrestResponse.
Variable coachTeamId : option string.

(** The table of the [switch] of l. 257-273. *)
Definition tableOfType (scheduleType : string) : option string :=
  if String.eqb scheduleType "practice" then Some "practice_schedules"
  else if String.eqb scheduleType "meeting" then Some "meeting_schedules"
  else None.

(** [handleDeleteSchedule] (l. 248-288) *)
Definition handleDeleteSchedule (scheduleId scheduleType : string) (st : State)
    : State * list Effect :=
  if negb confirm then (st, [])
  else
    match tableOfType scheduleType with
    | None => (st, [Alert "Cannot delete this type of schedule."])
    | Some table =>
        match delete table scheduleId with
        | Some err =>
            (log (ConsoleError "Error deleting schedule:" err) st,
             [DeleteFrom table scheduleId; Alert "Failed to delete schedule. Please try again."])
        | None =>
            let st :=
              match coachTeamId with
              | Some teamId =>
                  if String.eqb teamId "" then st
                  else fetchAllSchedules Date_parse supabase teamId st
              | None => st
              end in
            (st, [DeleteFrom table scheduleId; Alert "Schedule deleted successfully!"])
        end
    end.
End Delete.

End CoachScheduleList.

(** ** The teammates page (first unit of [app/player/teammates/page.tsx]) *)

Module PlayerTeammates.
Import JS Supabase.

Record State : Type := mkState {
  playerTeam : option Row;
  teammates : list Row;
  loading : bool;
  error : option string
}.

Definition setPlayerTeam (t : option Row) (st : State) : State :=
  mkState t (teammates st) (loading st) (error st).
Definition setTeammates (l : list Row) (st : State) : State :=
  mkState (playerTeam st) l (loading st) (error st).
Definition setLoading (b : bool) (st : State) : State :=
  mkState (playerTeam st) (teammates st) b (error st).
Definition setError (e : option string) (st : State) : State :=
  mkState (playerTeam st) (teammates st) (loading st) e.

Definition initial : State := mkState None [] true None.

(** The query of step 5 (l. 82-86). *)
Definition playersQuery (teamId : value) : Query :=
  from "user_profiles" |> select "*" |> eq "role" (VStr "player") |> eq "team_id" teamId.

Section Page.
Variable getUser : AuthResponse.
Variable supabase : Query -> PostgrestResponse.

(** [loadData] (l. 36-104). Its steps 1 to 4 (l. 41-78) are those of the
    schedule page, [PlayerSchedules.findTeam]. *)
Definition loadData (st : State) : State :=
  let st := setError None (setLoading true st) in
  let st :=
    match PlayerSchedules.findTeam getUser supabase with
    | inl msg => setError (Some msg) st
    | inr currentTeam =>
        let st := setPlayerTeam currentTeam st in
        match currentTeam with
        | Some team =>
            let res := supabase (playersQuery (get team "id")) in
            match Supabase.error res with
            | Some playersError =>
                setError (Some ("Error loading teammates: " +:+ message playersError)) st
            | None => setTeammates (default [] (data res)) st
            end
        | None => setTeammates [] st
        end
    end in
  setLoading false st.
End Page.

End PlayerTeammates.

(** ** Vocabulary of the statements *)

Module Spec.
Import JS Supabase.

(** The rows a response contributes: those of its [data], none when the
    query failed. *)
Definition rowsOf (r : PostgrestResponse) : list Row := default [] (data r).

(** The comparator shape shared by the pages: the difference of two time
    values, NaN when one of them is. *)
Definition byTime {A} (time : A -> option Z) (a b : A) : option Z :=
  match time a, time b with
  | Some x, Some y => Some (x - y)%Z
  | _, _ => None
  end.

(** [a] starts no later than [b], both having a time value. *)
Definition timeLe {A} (time : A -> option Z) (a b : A) : Prop :=
  match time a, time b with
  | Some x, Some y => (x <= y)%Z
  | _, _ => False
  end.

Definition hasTime {A} (time : A -> option Z) (a : A) : bool :=
  match time a with Some _ => true | None => false end.

(** The event starts at the instant [t]. *)
Definition startsAt {A} (time : A -> option Z) (t : Z) (a : A) : bool :=
  bool_decide (time a = Some t).

(** [a] occurs before [b] in [l]. *)
Definition before {A} (a b : A) (l : list A) : Prop :=
  exists l1 l2 l3, l = (l1 ++ a :: l2 ++ b :: l3)%list.

Section Times.
Variable Date_parse : string -> option Z.

(** The parsed start time of an event of the player pages. *)
Definition startOf (r : Row) : option Z := getTime Date_parse (get r "start_time").

(** The parsed start time of an event of the coach page. *)
Definition startOfCombined (s : CoachSchedules.CombinedSchedule) : option Z :=
  getTime Date_parse (CoachSchedules.start_time s).

(** The partition by time in the words of the specification: the
    events with [startTime > reference], and those with
    [startTime <= reference]. *)
Definition partitionByTime_spec (reference : Z) (events : list Row) : list Row * list Row :=
  (List.filter
     (fun e => match startOf e with Some t => (reference <? t)%Z | None => false end)
     events,
   List.filter
     (fun e => match startOf e with Some t => (t <=? reference)%Z | None => false end)
     events).

(** Every row of the response has a start time that parses. *)
Definition allTimed (r : PostgrestResponse) : bool :=
  forallb (hasTime startOf) (rowsOf r).
End Times.

(** The events of the three responses, tagged, in query order. *)
Definition playerMerged (team : Row) (practiceRes meetingRes gameRes : PostgrestResponse) : list Row :=
  (map PlayerSchedules.tagPractice (rowsOf practiceRes) ++ map PlayerSchedules.tagMeeting (rowsOf meetingRes)
     ++ map (PlayerSchedules.tagGame team) (rowsOf gameRes))%list.

(** What [loadData] writes to the console for one response. *)
Definition logged (label : string) (r : PostgrestResponse) : list ConsoleEntry :=
  match Supabase.error r with Some e => [ConsoleError label e] | None => [] end.

(** The events of the three responses, converted, in query order. *)
Definition coachMerged (practiceRes meetingRes gameRes : PostgrestResponse) : list CoachSchedules.CombinedSchedule :=
  (map CoachSchedules.ofPractice (rowsOf practiceRes) ++ map CoachSchedules.ofMeeting (rowsOf meetingRes)
     ++ map CoachSchedules.ofGame (rowsOf gameRes))%list.

(** What [fetchAllSchedules] writes to the console for a meeting or game
    response. *)
Definition warned (label : string) (r : PostgrestResponse) : list ConsoleEntry :=
  match Supabase.error r with
  | Some e => if String.eqb (code e) "42P01" then [] else [ConsoleWarn label e]
  | None => []
  end.

(** The events of the three responses, tagged, in query order. *)
Definition dashboardMerged (practiceRes meetingRes gameRes : PostgrestResponse) : list Row :=
  (map (PlayerDashboard.tagType "practice") (rowsOf practiceRes) ++ map (PlayerDashboard.tagType "meeting") (rowsOf meetingRes)
     ++ map (PlayerDashboard.tagType "game") (rowsOf gameRes))%list.

End Spec.

(** ** A small backend for the examples *)

Module Example.
Import JS Supabase.

(** An object literal. *)
Definition obj (fields : list (string * value)) : Row := list_to_map fields.

Definition user1 : Row := obj [("id", VStr "u1")].

Definition team1 : Row := obj [("id", VStr "T1"); ("name", VStr "Tigers")].

Definition practiceA : Row :=
  obj [("id", VStr "p1"); ("team_id", VStr "T1"); ("title", VStr "Drills");
       ("start_time", VStr "2025-01-15T10:00:00Z")].

Definition practiceB : Row :=
  obj [("id", VStr "p2"); ("team_id", VStr "T1"); ("title", VStr "Sprints");
       ("start_time", VStr "2025-01-15T14:00:00Z")].

Definition meetingA : Row :=
  obj [("id", VStr "m1"); ("team_id", VStr "T1"); ("title", VStr "Tactics");
       ("meeting_type", VStr "team_meeting");
       ("start_time", VStr "2025-01-15T12:00:00Z")].

(** A game that starts together with [practiceA]. *)
Definition gameA : Row :=
  obj [("id", VStr "g1"); ("team1_id", VStr "T2"); ("team2_id", VStr "T1");
       ("title", VStr "Derby"); ("schedule_type", VStr "scrimmage");
       ("start_time", VStr "2025-01-15T10:00:00Z")].

(** A game of two other teams. *)
Definition gameOther : Row :=
  obj [("id", VStr "g2"); ("team1_id", VStr "T2"); ("team2_id", VStr "T3");
       ("title", VStr "Cup"); ("start_time", VStr "2025-01-16T10:00:00Z")].

(** A practice row whose [start_time] is [null]. *)
Definition practiceNull : Row :=
  obj [("id", VStr "p3"); ("team_id", VStr "T1"); ("title", VStr "Unplanned");
       ("start_time", VNull)].

Definition profile1 : Row :=
  obj [("id", VStr "pr1"); ("user_id", VStr "u1"); ("role", VStr "player");
       ("team_id", VStr "T1")].

Definition loggedIn : AuthResponse := mkAuth (Some user1) None.

(** A database with the tables of the player pages; the coach page's
    [game_schedules] table does not exist. *)
Definition db : Database := fun t =>
  if String.eqb t "user_profiles" then Some [profile1]
  else if String.eqb t "teams" then Some [team1]
  else if String.eqb t "practice_schedules" then Some [practiceA; practiceB]
  else if String.eqb t "meeting_schedules" then Some [meetingA]
  else if String.eqb t "schedules" then Some [gameOther; gameA]
  else if String.eqb t "announcements" then Some []
  else None.

(** The same with a malformed practice row. *)
Definition dbNull : Database := fun t =>
  if String.eqb t "practice_schedules" then Some [practiceA; practiceNull; practiceB]
  else db t.

(** The tables of the coach page: [game_schedules] exists and its rows carry
    a [team_id]. *)
Definition coachGame : Row :=
  obj [("id", VStr "cg1"); ("team_id", VStr "T1"); ("title", VStr "Home game");
       ("opponent", VStr "Lions"); ("start_time", VStr "2025-01-15T16:00:00Z")].

Definition coachDb : Database := fun t =>
  if String.eqb t "game_schedules" then Some [coachGame] else db t.

(** A database that lacks one table. *)
Definition without (missing : string) (d : Database) : Database := fun t =>
  if String.eqb t missing then None else d t.

(** A fuller calendar: three practices, two meetings and two games of T1. *)
Definition practiceC : Row :=
  obj [("id", VStr "p4"); ("team_id", VStr "T1"); ("title", VStr "Recovery");
       ("start_time", VStr "2025-01-16T09:00:00Z")].

Definition meetingB : Row :=
  obj [("id", VStr "m2"); ("team_id", VStr "T1"); ("title", VStr "Parents");
       ("meeting_type", VStr "parent_meeting");
       ("start_time", VStr "2025-01-16T11:00:00Z")].

Definition gameB : Row :=
  obj [("id", VStr "g3"); ("team1_id", VStr "T1"); ("team2_id", VStr "T3");
       ("title", VStr "Final"); ("start_time", VStr "2025-01-17T18:00:00Z")].

Definition busyDb : Database := fun t =>
  if String.eqb t "practice_schedules" then Some [practiceC; practiceA; practiceB]
  else if String.eqb t "meeting_schedules" then Some [meetingB; meetingA]
  else if String.eqb t "schedules" then Some [gameB; gameOther; gameA]
  else db t.

Definition backend (d : Database) : Query -> PostgrestResponse :=
  queryRows IsoDate.parse d.

(** A backend on which every schedule query fails. *)
Definition offline : Query -> PostgrestResponse := fun q =>
  if String.eqb (table q) "user_profiles" || String.eqb (table q) "teams"
  then backend db q
  else Failure (mkError "Failed to fetch" "").

End Example.

(** ** More examples *)

Module ExtraExample.
Import JS Supabase Text.

(** [parseInt] on the strings of decimal digits; every other string is
    answered with NaN. *)
Definition parseDecimal (s : string) : number :=
  if String.eqb s "" then NaN
  else match IsoDate.number 0 (String.list_ascii_of_string s) with
       | Some n => Int n
       | None => NaN
       end.

(** A day name for each start time: the text before the [T]. *)
Definition dayOf (v : value) : string :=
  match v with
  | VStr s => PlayerScheduleCards.getDateFromTimestamp s
  | _ => "Invalid Date"
  end.

(** [Date.parse] on day names: those of [dayOf], at midnight. *)
Definition parseDay (s : string) : option Z := IsoDate.parse (s +:+ "T00:00:00Z").

Definition coach1 : Row := Example.obj [("id", VStr "c1"); ("email", VStr "coach@example.org")].

(** A profile of a user who is not a player. *)
Definition coachProfile : Row :=
  Example.obj [("id", VStr "pr2"); ("user_id", VStr "u1"); ("role", VStr "coach");
               ("team_id", VStr "T1")].

Definition coachDbProfiles : Database := fun t =>
  if String.eqb t "user_profiles" then Some [coachProfile] else Example.db t.

(** A second player of T1. *)
Definition profile2 : Row :=
  Example.obj [("id", VStr "pr3"); ("user_id", VStr "u2"); ("role", VStr "player");
               ("team_id", VStr "T1")].

Definition teamDb : Database := fun t =>
  if String.eqb t "user_profiles" then Some [Example.profile1; profile2] else Example.db t.

End ExtraExample.

(** ** Facts about the array operations *)

Section ArrayFacts.
Import JS Spec.
Context {A : Type}.

Lemma forEach_push_app {B} (f : B -> A) rows acc :
  forEach_push f rows acc = (acc ++ map f rows)%list.
Proof.
  unfold forEach_push. revert acc.
  induction rows as [|r rows IH]; intros acc; simpl.
  - by rewrite app_nil_r.
  - rewrite IH, <- app_assoc. reflexivity.
Qed.

Lemma insert_Permutation (cmp : A -> A -> option Z) x l :
  insert cmp x l ≡ₚ x :: l.
Proof.
  induction l as [|y l IH]; simpl; [done|].
  destruct (SortCompare cmp x y <=? 0)%Z; [done|].
  rewrite IH. apply perm_swap.
Qed.

Lemma sort_Permutation (cmp : A -> A -> option Z) l : sort cmp l ≡ₚ l.
Proof.
  induction l as [|x l IH]; simpl; [done|].
  rewrite insert_Permutation. by rewrite IH.
Qed.

Lemma sort_length (cmp : A -> A -> option Z) l : length (sort cmp l) = length l.
Proof. by rewrite sort_Permutation. Qed.

Lemma sort_In (cmp : A -> A -> option Z) l x : In x (sort cmp l) <-> In x l.
Proof.
  split; apply Permutation_in; [|symmetry]; apply sort_Permutation.
Qed.

Variable time : A -> option Z.

Lemma timeLe_trans a b c : timeLe time a b -> timeLe time b c -> timeLe time a c.
Proof.
  unfold timeLe. destruct (time a), (time b), (time c); try tauto. lia.
Qed.

(** What the two outcomes of the comparison in [insert] say, for events
    that have a time. *)
Lemma SortCompare_le x y :
  hasTime time x = true -> hasTime time y = true ->
  (SortCompare (byTime time) x y <=? 0)%Z = true -> timeLe time x y.
Proof.
  unfold hasTime, SortCompare, byTime, timeLe.
  destruct (time x), (time y); try discriminate. simpl. lia.
Qed.

Lemma SortCompare_gt x y :
  (SortCompare (byTime time) x y <=? 0)%Z = false ->
  exists tx ty, time x = Some tx /\ time y = Some ty /\ (ty < tx)%Z.
Proof.
  unfold SortCompare, byTime.
  destruct (time x) as [tx|], (time y) as [ty|]; simpl; try discriminate.
  intros H. exists tx, ty. repeat split. lia.
Qed.

Lemma insert_sorted x l :
  hasTime time x = true -> Forall (fun a => hasTime time a = true) l ->
  StronglySorted (timeLe time) l ->
  StronglySorted (timeLe time) (insert (byTime time) x l).
Proof.
  intros Hx Hl Hs. induction Hs as [|y l Hs IH Hy]; simpl.
  - repeat constructor.
  - inversion Hl as [|? ? Hty Hl']; subst.
    destruct (SortCompare (byTime time) x y <=? 0)%Z eqn:E.
    + pose proof (SortCompare_le _ _ Hx Hty E) as Hxy.
      constructor; [by constructor|].
      constructor; [done|].
      eapply Forall_impl; [exact Hy|]. intros z Hz. by eapply timeLe_trans.
    + constructor; [by apply IH|].
      rewrite insert_Permutation. constructor; [|done].
      destruct (SortCompare_gt _ _ E) as (tx & ty & Ex & Ey & Hlt).
      unfold timeLe. rewrite Ex, Ey. lia.
Qed.

Lemma sort_sorted l :
  Forall (fun a => hasTime time a = true) l ->
  StronglySorted (timeLe time) (sort (byTime time) l).
Proof.
  induction 1 as [|x l Hx Hl IH]; simpl; [constructor|].
  apply insert_sorted; [done| |done].
  by rewrite sort_Permutation.
Qed.

(** Stability: inserting [x] does not move it past an event with the same
    time. *)
Lemma insert_startsAt t x l :
  List.filter (startsAt time t) (insert (byTime time) x l)
  = List.filter (startsAt time t) (x :: l).
Proof.
  induction l as [|y l IH]; [done|]. simpl insert.
  destruct (SortCompare (byTime time) x y <=? 0)%Z eqn:E; [done|].
  destruct (SortCompare_gt _ _ E) as (tx & ty & Ex & Ey & Hlt).
  change (List.filter (startsAt time t) (y :: insert (byTime time) x l))
    with (if startsAt time t y
          then y :: List.filter (startsAt time t) (insert (byTime time) x l)
          else List.filter (startsAt time t) (insert (byTime time) x l)).
  rewrite IH. simpl. unfold startsAt. rewrite Ex, Ey.
  repeat case_bool_decide; simplify_eq; try done. lia.
Qed.

Lemma sort_stable t l :
  List.filter (startsAt time t) (sort (byTime time) l)
  = List.filter (startsAt time t) l.
Proof.
  induction l as [|x l IH]; [done|]. simpl sort.
  rewrite insert_startsAt. simpl. by rewrite IH.
Qed.
End ArrayFacts.

(** ** The player's schedule page *)

Module PlayerFacts.
Import JS Supabase Spec PlayerSchedules.

Section Facts.
Variable Date_parse : string -> option Z.
Variable getUser : AuthResponse.
Variable supabase : Query -> PostgrestResponse.

Lemma player_pushAll_app f rows acc :
  pushAll f rows acc = (acc ++ map f (default [] rows))%list.
Proof.
  destruct rows as [rs|]; simpl.
  - apply forEach_push_app.
  - by rewrite app_nil_r.
Qed.

Lemma logError_console label r st :
  console (logError label (Supabase.error r) st) = (console st ++ logged label r)%list.
Proof.
  unfold logged. destruct (Supabase.error r); simpl; [done|by rewrite app_nil_r].
Qed.

Lemma logError_error label e st : error (logError label e st) = error st.
Proof. by destruct e. Qed.

Lemma loadTeamSchedules_schedules team st :
  schedules (loadTeamSchedules Date_parse supabase team st)
  = sort (byTime (startOf Date_parse))
      (playerMerged team (supabase (practiceQuery (get team "id")))
         (supabase (meetingQuery (get team "id")))
         (supabase (gameQuery (get team "id")))).
Proof.
  unfold loadTeamSchedules, playerMerged, rowsOf. simpl.
  rewrite !player_pushAll_app. simpl. by rewrite <- app_assoc.
Qed.

Lemma loadTeamSchedules_error team st :
  error (loadTeamSchedules Date_parse supabase team st) = error st.
Proof. unfold loadTeamSchedules. simpl. by rewrite !logError_error. Qed.

Lemma loadTeamSchedules_console team st :
  console (loadTeamSchedules Date_parse supabase team st)
  = (console st
       ++ logged "Practice schedules error:" (supabase (practiceQuery (get team "id")))
       ++ logged "Meeting schedules error:" (supabase (meetingQuery (get team "id")))
       ++ logged "Game schedules error:" (supabase (gameQuery (get team "id"))))%list.
Proof.
  unfold loadTeamSchedules. simpl. rewrite !logError_console.
  by rewrite <- !app_assoc.
Qed.

(** The whole call, once the player's team is found. *)
Lemma loadData_team team st :
  findTeam getUser supabase = inr (Some team) ->
  loadData Date_parse getUser supabase st
  = setLoading false
      (loadTeamSchedules Date_parse supabase team
         (setPlayerTeam (Some team) (setError None (setLoading true st)))).
Proof. intros H. unfold loadData. by rewrite H. Qed.

Lemma loadData_schedules team st :
  findTeam getUser supabase = inr (Some team) ->
  schedules (loadData Date_parse getUser supabase st)
  = sort (byTime (startOf Date_parse))
      (playerMerged team (supabase (practiceQuery (get team "id")))
         (supabase (meetingQuery (get team "id")))
         (supabase (gameQuery (get team "id")))).
Proof.
  intros H. rewrite (loadData_team _ _ H).
  exact (loadTeamSchedules_schedules team _).
Qed.

Lemma loadData_error team st :
  findTeam getUser supabase = inr (Some team) ->
  error (loadData Date_parse getUser supabase st) = None.
Proof.
  intros H. rewrite (loadData_team _ _ H).
  exact (loadTeamSchedules_error team _).
Qed.

Lemma loadData_console team st :
  findTeam getUser supabase = inr (Some team) ->
  console (loadData Date_parse getUser supabase st)
  = (console st
       ++ logged "Practice schedules error:" (supabase (practiceQuery (get team "id")))
       ++ logged "Meeting schedules error:" (supabase (meetingQuery (get team "id")))
       ++ logged "Game schedules error:" (supabase (gameQuery (get team "id"))))%list.
Proof.
  intros H. rewrite (loadData_team _ _ H).
  exact (loadTeamSchedules_console team _).
Qed.

Lemma loadData_loading st : loading (loadData Date_parse getUser supabase st) = false.
Proof. reflexivity. Qed.

(** The two lists of [partitionByTime] are the events for which
    [isUpcoming] holds and those for which it does not. *)
Lemma partitionByTime_filter now events :
  partitionByTime Date_parse now events
  = (List.filter (fun e => isUpcoming Date_parse now (get e "start_time")) events,
     List.filter (fun e => negb (isUpcoming Date_parse now (get e "start_time"))) events).
Proof.
  unfold partitionByTime, cards.
  induction events as [|e l IH]; [done|]. simpl.
  injection IH as IH1 IH2.
  destruct (isUpcoming Date_parse now (get e "start_time")); simpl;
    by rewrite IH1, IH2.
Qed.

(** The tags leave [start_time] alone. *)
Lemma startOf_tagPractice r : startOf Date_parse (tagPractice r) = startOf Date_parse r.
Proof. unfold startOf, tagPractice, get. by rewrite !lookup_insert_ne. Qed.

Lemma startOf_tagMeeting r : startOf Date_parse (tagMeeting r) = startOf Date_parse r.
Proof. unfold startOf, tagMeeting, get. by rewrite !lookup_insert_ne. Qed.

Lemma startOf_tagGame team r : startOf Date_parse (tagGame team r) = startOf Date_parse r.
Proof. unfold startOf, tagGame, get. by rewrite !lookup_insert_ne. Qed.

Lemma player_allTimed_map (f : Row -> Row) r :
  (forall x, startOf Date_parse (f x) = startOf Date_parse x) ->
  allTimed Date_parse r = true ->
  Forall (fun a => hasTime (startOf Date_parse) a = true) (map f (rowsOf r)).
Proof.
  intros Hf H. unfold allTimed in H. rewrite forallb_forall in H.
  apply List.Forall_forall. intros y Hy. apply in_map_iff in Hy as (x & <- & Hx).
  unfold hasTime. rewrite Hf. by apply H.
Qed.

Lemma player_merged_timed team pr mr gr :
  allTimed Date_parse pr = true -> allTimed Date_parse mr = true ->
  allTimed Date_parse gr = true ->
  Forall (fun a => hasTime (startOf Date_parse) a = true) (playerMerged team pr mr gr).
Proof.
  intros Hp Hm Hg. unfold playerMerged. rewrite !Forall_app. repeat split.
  - apply player_allTimed_map; [apply startOf_tagPractice|done].
  - apply player_allTimed_map; [apply startOf_tagMeeting|done].
  - apply player_allTimed_map; [apply startOf_tagGame|done].
Qed.
End Facts.

End PlayerFacts.

(** ** The coach's schedule page *)

Module CoachFacts.
Import JS Supabase Spec CoachSchedules.

Section Facts.
Variable Date_parse : string -> option Z.
Variable supabase : Query -> PostgrestResponse.

Lemma coach_pushAll_app f rows acc :
  pushAll f rows acc = (acc ++ map f (default [] rows))%list.
Proof.
  destruct rows as [rs|]; simpl.
  - apply forEach_push_app.
  - by rewrite app_nil_r.
Qed.

Lemma warn_console label r st :
  console (warnUnlessMissingTable label (Supabase.error r) st)
  = (console st ++ warned label r)%list.
Proof.
  unfold warned, warnUnlessMissingTable.
  destruct (Supabase.error r) as [e|]; simpl; [|by rewrite app_nil_r].
  destruct (String.eqb (code e) "42P01"); simpl; [by rewrite app_nil_r|done].
Qed.

Lemma warn_error label e st : error (warnUnlessMissingTable label e st) = error st.
Proof.
  unfold warnUnlessMissingTable. destruct e as [e|]; [|done].
  by destruct (String.eqb (code e) "42P01").
Qed.

Lemma warn_schedules label e st :
  schedules (warnUnlessMissingTable label e st) = schedules st.
Proof.
  unfold warnUnlessMissingTable. destruct e as [e|]; [|done].
  by destruct (String.eqb (code e) "42P01").
Qed.

(** A failed practice query ends the call in the error state. *)
Lemma fetchAllSchedules_practice_failed teamId st e :
  supabase (practiceQuery teamId) = Failure e ->
  fetchAllSchedules Date_parse supabase teamId st
  = setLoading false
      (setError (Some "Failed to load schedules.")
         (log (ConsoleError "Error fetching schedules:" e) st)).
Proof.
  intros H. unfold fetchAllSchedules, fetchAllSchedules_try. by rewrite H.
Qed.

(** With the practice rows at hand the call reaches [setSchedules]. *)
Lemma fetchAllSchedules_practice_ok teamId st P :
  supabase (practiceQuery teamId) = Success P ->
  fetchAllSchedules Date_parse supabase teamId st
  = setLoading false
      (setSchedules
         (sort (byTime (startOfCombined Date_parse))
            (coachMerged (Success P) (supabase (meetingQuery teamId))
               (supabase (gameQuery teamId))))
         (warnUnlessMissingTable "Game schedules error:"
            (Supabase.error (supabase (gameQuery teamId)))
            (warnUnlessMissingTable "Meeting schedules error:"
               (Supabase.error (supabase (meetingQuery teamId))) st))).
Proof.
  intros H. unfold fetchAllSchedules, fetchAllSchedules_try. rewrite H. simpl.
  rewrite forEach_push_app, !coach_pushAll_app. unfold coachMerged, rowsOf. simpl.
  rewrite <- app_assoc. reflexivity.
Qed.

Lemma fetchAllSchedules_schedules teamId st P :
  supabase (practiceQuery teamId) = Success P ->
  schedules (fetchAllSchedules Date_parse supabase teamId st)
  = sort (byTime (startOfCombined Date_parse))
      (coachMerged (Success P) (supabase (meetingQuery teamId))
         (supabase (gameQuery teamId))).
Proof. intros H. by rewrite (fetchAllSchedules_practice_ok _ _ _ H). Qed.

Lemma fetchAllSchedules_error teamId st P :
  supabase (practiceQuery teamId) = Success P ->
  error (fetchAllSchedules Date_parse supabase teamId st) = error st.
Proof.
  intros H. rewrite (fetchAllSchedules_practice_ok _ _ _ H).
  etransitivity; [apply warn_error|apply warn_error].
Qed.

Lemma fetchAllSchedules_console teamId st P :
  supabase (practiceQuery teamId) = Success P ->
  console (fetchAllSchedules Date_parse supabase teamId st)
  = (console st ++ warned "Meeting schedules error:" (supabase (meetingQuery teamId))
       ++ warned "Game schedules error:" (supabase (gameQuery teamId)))%list.
Proof.
  intros H. rewrite (fetchAllSchedules_practice_ok _ _ _ H).
  etransitivity; [apply warn_console|]. rewrite warn_console.
  by rewrite <- app_assoc.
Qed.

Lemma coach_allTimed_map (f : Row -> CombinedSchedule) r :
  (forall x, startOfCombined Date_parse (f x) = startOf Date_parse x) ->
  allTimed Date_parse r = true ->
  Forall (fun a => hasTime (startOfCombined Date_parse) a = true) (map f (rowsOf r)).
Proof.
  intros Hf H. unfold allTimed in H. rewrite forallb_forall in H.
  apply List.Forall_forall. intros y Hy. apply in_map_iff in Hy as (x & <- & Hx).
  unfold hasTime. rewrite Hf. by apply H.
Qed.

Lemma coach_merged_timed pr mr gr :
  allTimed Date_parse pr = true -> allTimed Date_parse mr = true ->
  allTimed Date_parse gr = true ->
  Forall (fun a => hasTime (startOfCombined Date_parse) a = true) (coachMerged pr mr gr).
Proof.
  intros Hp Hm Hg. unfold coachMerged. rewrite !Forall_app.
  repeat split; by apply coach_allTimed_map.
Qed.
End Facts.

End CoachFacts.

(** ** The player dashboard *)

Module DashboardFacts.
Import JS Supabase Spec PlayerDashboard.

Section Facts.
Variable Date_parse : string -> option Z.
Variable getUser : AuthResponse.
Variable supabase : Query -> PostgrestResponse.
Variable currentDate : string.

Lemma dashboard_pushAll_app f rows acc :
  pushAll f rows acc = (acc ++ map f (default [] rows))%list.
Proof.
  destruct rows as [[|r rs]|]; simpl; try by rewrite app_nil_r.
  apply (forEach_push_app f (r :: rs)).
Qed.

Lemma fetchUpcomingEvents_upcoming team st :
  upcomingEvents (fetchUpcomingEvents Date_parse supabase currentDate team st)
  = take 5 (sort (byTime (startOf Date_parse))
              (dashboardMerged (supabase (practiceQuery (get team "id") currentDate))
                 (supabase (meetingQuery (get team "id") currentDate))
                 (supabase (gameQuery (get team "id") currentDate)))).
Proof.
  unfold fetchUpcomingEvents, dashboardMerged, rowsOf, slice0. simpl.
  rewrite !dashboard_pushAll_app. simpl. by rewrite <- app_assoc.
Qed.

Lemma fetchPlayerData_upcoming u team st :
  findTeam getUser supabase = Some (u, team) ->
  upcomingEvents (fetchPlayerData Date_parse getUser supabase currentDate st)
  = take 5 (sort (byTime (startOf Date_parse))
              (dashboardMerged (supabase (practiceQuery (get team "id") currentDate))
                 (supabase (meetingQuery (get team "id") currentDate))
                 (supabase (gameQuery (get team "id") currentDate)))).
Proof.
  intros H. unfold fetchPlayerData. rewrite H.
  exact (fetchUpcomingEvents_upcoming team _).
Qed.

Lemma startOf_tagType t r : startOf Date_parse (tagType t r) = startOf Date_parse r.
Proof. unfold startOf, tagType, get. by rewrite lookup_insert_ne. Qed.

Lemma dashboard_merged_timed pr mr gr :
  allTimed Date_parse pr = true -> allTimed Date_parse mr = true ->
  allTimed Date_parse gr = true ->
  Forall (fun a => hasTime (startOf Date_parse) a = true) (dashboardMerged pr mr gr).
Proof.
  intros Hp Hm Hg. unfold dashboardMerged. rewrite !Forall_app.
  repeat split; (apply PlayerFacts.player_allTimed_map; [apply startOf_tagType|done]).
Qed.

(** The data source returns no more rows than the limit of the query. *)
Lemma queryRows_limit (db : Database) q n :
  rowLimit q = Some n -> (length (rowsOf (queryRows Date_parse db q)) <= n)%nat.
Proof.
  intros H. unfold queryRows, rowsOf. destruct (db (table q)); simpl; [|lia].
  rewrite H. simpl. rewrite length_take. lia.
Qed.
End Facts.

End DashboardFacts.

(** ** Prefixes of sorted lists *)

Section TakeSorted.
Context {A : Type} (R : A -> A -> Prop).

Lemma StronglySorted_take n l : StronglySorted R l -> StronglySorted R (take n l).
Proof.
  intros H. revert n. induction H as [|x l H IH Hx]; intros [|n]; simpl;
    try constructor; [apply IH|].
  by apply Forall_take.
Qed.

Lemma StronglySorted_take_drop n l a b :
  StronglySorted R l -> In a (take n l) -> In b (drop n l) -> R a b.
Proof.
  intros H. revert n. induction H as [|x l H IH Hx]; intros [|n]; simpl; try done.
  intros [<-|Ha] Hb.
  - rewrite List.Forall_forall in Hx. apply Hx.
    rewrite <- (take_drop n l). apply in_or_app. by right.
  - by apply (IH n).
Qed.
End TakeSorted.

(** ** Occurrence order in lists *)

Section Before.
Import Spec.
Context {A : Type}.

Lemma in_app_before (a b : A) l1 l2 : In a l1 -> In b l2 -> before a b (l1 ++ l2).
Proof.
  intros Ha Hb.
  apply in_split in Ha as (x1 & x2 & ->). apply in_split in Hb as (y1 & y2 & ->).
  exists x1, (x2 ++ y1)%list, y2. by rewrite <- !app_assoc.
Qed.

Lemma before_app_r (a b : A) l0 l : before a b l -> before a b (l0 ++ l).
Proof.
  intros (l1 & l2 & l3 & ->). exists (l0 ++ l1)%list, l2, l3. by rewrite <- app_assoc.
Qed.

Lemma before_filter (p : A -> bool) a b l :
  p a = true -> p b = true -> before a b l -> before a b (List.filter p l).
Proof.
  intros Ha Hb (l1 & l2 & l3 & ->).
  exists (List.filter p l1), (List.filter p l2), (List.filter p l3).
  rewrite List.filter_app. simpl. rewrite Ha, List.filter_app. simpl. by rewrite Hb.
Qed.

Lemma filter_split (p : A -> bool) l l1 x r :
  List.filter p l = (l1 ++ x :: r)%list ->
  exists m1 m2, l = (m1 ++ x :: m2)%list /\ List.filter p m2 = r.
Proof.
  revert l1. induction l as [|y l IH]; intros l1 H; simpl in H.
  - by destruct l1.
  - destruct (p y).
    + destruct l1 as [|z l1]; simpl in H; injection H as Hy H.
      * subst. by exists [], l.
      * destruct (IH _ H) as (m1 & m2 & -> & Hr). subst. by exists (z :: m1), m2.
    + destruct (IH _ H) as (m1 & m2 & -> & Hr). by exists (y :: m1), m2.
Qed.

Lemma filter_before (p : A -> bool) a b l :
  before a b (List.filter p l) -> before a b l.
Proof.
  intros (l1 & l2 & l3 & H).
  apply filter_split in H as (m1 & m2 & -> & H).
  apply filter_split in H as (n1 & n2 & -> & _).
  by exists m1, n1, n2.
Qed.
End Before.

(** ** Filtering *)

Section FilterFacts.
Import CoachSchedules.
Context {A : Type}.

Lemma sublist_List_filter (p : A -> bool) l : sublist (List.filter p l) l.
Proof.
  induction l as [|x l IH]; simpl; [constructor|].
  destruct (p x); by constructor.
Qed.

Lemma List_filter_all (p : A -> bool) l : (forall x, p x = true) -> List.filter p l = l.
Proof.
  intros H. induction l as [|x l IH]; simpl; [done|]. by rewrite H, IH.
Qed.

Lemma List_filter_idem (p : A -> bool) l :
  List.filter p (List.filter p l) = List.filter p l.
Proof.
  induction l as [|x l IH]; simpl; [done|].
  destruct (p x) eqn:E; simpl; [|done]. by rewrite E, IH.
Qed.

(** A predicate that never throws makes [filterM] the plain filter. *)
Lemma filterM_total (p : A -> option bool) (q : A -> bool) l :
  (forall x, p x = Some (q x)) -> filterM p l = Some (List.filter q l).
Proof.
  intros H. induction l as [|x l IH]; simpl; [done|].
  rewrite H, IH. by destruct (q x).
Qed.

Lemma filterM_sublist (p : A -> option bool) l out :
  filterM p l = Some out -> sublist out l.
Proof.
  revert out. induction l as [|x l IH]; simpl; intros out H.
  - injection H as <-. constructor.
  - destruct (p x) as [b|]; [|done].
    destruct (filterM p l) as [r|]; [|done]. injection H as <-.
    destruct b; constructor; by apply IH.
Qed.

Lemma filterM_kept (p : A -> option bool) l out :
  filterM p l = Some out -> forall x, In x out -> p x = Some true.
Proof.
  revert out. induction l as [|x l IH]; simpl; intros out H y Hy.
  - injection H as <-. destruct Hy.
  - destruct (p x) as [b|] eqn:E; [|done].
    destruct (filterM p l) as [r|]; [|done]. injection H as <-.
    destruct b.
    + destruct Hy as [<-|Hy]; [done|]. by eapply IH.
    + by eapply IH.
Qed.

Lemma filterM_keep_all (p : A -> option bool) l :
  (forall x, In x l -> p x = Some true) -> filterM p l = Some l.
Proof.
  induction l as [|x l IH]; simpl; intros H; [done|].
  rewrite (H x) by (by left). rewrite IH; [done|]. intros y Hy. apply H. by right.
Qed.

Lemma filterM_idem (p : A -> option bool) l out :
  filterM p l = Some out -> filterM p out = Some out.
Proof. intros H. apply filterM_keep_all. by eapply filterM_kept. Qed.
End FilterFacts.

(** ** The claims *)

Section Claims.
  Import JS Supabase Spec.

(** C2 (ordering). When every fetched row has a start time that parses, the
    sequence that the schedule fetch stores is sorted by the parsed start
    time, each event starting no later than all events after it: on the
    player page once the team is found, on the coach page once the practice
    query has succeeded. *)
Theorem C2_schedules_sorted (Date_parse : string -> option Z)
    (getUser : AuthResponse) (supabase : Query -> PostgrestResponse) :
  (forall team st,
     PlayerSchedules.findTeam getUser supabase = inr (Some team) ->
     allTimed Date_parse (supabase (PlayerSchedules.practiceQuery (get team "id"))) = true ->
     allTimed Date_parse (supabase (PlayerSchedules.meetingQuery (get team "id"))) = true ->
     allTimed Date_parse (supabase (PlayerSchedules.gameQuery (get team "id"))) = true ->
     StronglySorted (timeLe (startOf Date_parse))
       (PlayerSchedules.schedules
          (PlayerSchedules.loadData Date_parse getUser supabase st)))
  /\
  (forall teamId st P,
     supabase (CoachSchedules.practiceQuery teamId) = Success P ->
     allTimed Date_parse (Success P) = true ->
     allTimed Date_parse (supabase (CoachSchedules.meetingQuery teamId)) = true ->
     allTimed Date_parse (supabase (CoachSchedules.gameQuery teamId)) = true ->
     StronglySorted (timeLe (startOfCombined Date_parse))
       (CoachSchedules.schedules
          (CoachSchedules.fetchAllSchedules Date_parse supabase teamId st))).
Proof.
  split.
  - intros team st Hteam Hp Hm Hg.
    rewrite (PlayerFacts.loadData_schedules _ _ _ _ _ Hteam).
    apply sort_sorted. by apply PlayerFacts.player_merged_timed.
  - intros teamId st P HP Hp Hm Hg.
    rewrite (CoachFacts.fetchAllSchedules_schedules _ _ _ _ _ HP).
    apply sort_sorted. by apply CoachFacts.coach_merged_timed.
Qed.

Lemma C2_schedules_sorted_witness :
  StronglySorted (timeLe (startOf IsoDate.parse))
    (PlayerSchedules.schedules
       (PlayerSchedules.loadData IsoDate.parse Example.loggedIn
          (Example.backend Example.db) PlayerSchedules.initial))
  /\
  StronglySorted (timeLe (startOfCombined IsoDate.parse))
    (CoachSchedules.schedules
       (CoachSchedules.fetchAllSchedules IsoDate.parse
          (Example.backend Example.coachDb) "T1" CoachSchedules.initial)).
Proof.
  split.
  - apply (proj1 (C2_schedules_sorted IsoDate.parse Example.loggedIn
                    (Example.backend Example.db)) Example.team1);
      vm_compute; reflexivity.
  - apply (proj2 (C2_schedules_sorted IsoDate.parse Example.loggedIn
                    (Example.backend Example.coachDb)) "T1" CoachSchedules.initial
             [Example.practiceA; Example.practiceB]);
      vm_compute; reflexivity.
Defined.

(** C3 (stability). On the player page, when every fetched row has a start
    time that parses, the events that start at one instant appear in the
    output as they were queried: the practices, then the meetings, then the
    games, each group in the order of its response. Two events with equal
    start times keep the order they have in the concatenation, whatever
    their other fields. *)
Theorem C3_ties_keep_query_order (Date_parse : string -> option Z)
    (getUser : AuthResponse) (supabase : Query -> PostgrestResponse)
    (team : Row) (st : PlayerSchedules.State) :
  PlayerSchedules.findTeam getUser supabase = inr (Some team) ->
  allTimed Date_parse (supabase (PlayerSchedules.practiceQuery (get team "id"))) = true ->
  allTimed Date_parse (supabase (PlayerSchedules.meetingQuery (get team "id"))) = true ->
  allTimed Date_parse (supabase (PlayerSchedules.gameQuery (get team "id"))) = true ->
  let practices := map PlayerSchedules.tagPractice
                     (rowsOf (supabase (PlayerSchedules.practiceQuery (get team "id")))) in
  let meetings := map PlayerSchedules.tagMeeting
                    (rowsOf (supabase (PlayerSchedules.meetingQuery (get team "id")))) in
  let games := map (PlayerSchedules.tagGame team)
                 (rowsOf (supabase (PlayerSchedules.gameQuery (get team "id")))) in
  let out := PlayerSchedules.schedules
               (PlayerSchedules.loadData Date_parse getUser supabase st) in
  (forall t,
     List.filter (startsAt (startOf Date_parse) t) out
     = (List.filter (startsAt (startOf Date_parse) t) practices
          ++ List.filter (startsAt (startOf Date_parse) t) meetings
          ++ List.filter (startsAt (startOf Date_parse) t) games)%list)
  /\ (forall a b,
        before a b (practices ++ meetings ++ games) ->
        startOf Date_parse a = startOf Date_parse b ->
        before a b out)
  /\ (forall a b,
        (In a practices /\ In b meetings) \/ (In a practices /\ In b games)
        \/ (In a meetings /\ In b games) ->
        startOf Date_parse a = startOf Date_parse b ->
        before a b out).
Proof.
  intros Hteam Hp Hm Hg practices meetings games out.
  assert (Hout : out = sort (byTime (startOf Date_parse)) (practices ++ meetings ++ games)).
  { apply (PlayerFacts.loadData_schedules _ _ _ _ _ Hteam). }
  assert (Hall : Forall (fun a => hasTime (startOf Date_parse) a = true)
                   (practices ++ meetings ++ games)).
  { by apply PlayerFacts.player_merged_timed. }
  assert (Hties : forall a b, before a b (practices ++ meetings ++ games) ->
                    startOf Date_parse a = startOf Date_parse b -> before a b out).
  { intros a b Hab Heq.
    assert (Ha : In a (practices ++ meetings ++ games)).
    { destruct Hab as (l1 & l2 & l3 & ->). apply in_elt. }
    rewrite List.Forall_forall in Hall. specialize (Hall a Ha).
    unfold hasTime in Hall. destruct (startOf Date_parse a) as [t|] eqn:Et; [|done].
    apply (filter_before (startsAt (startOf Date_parse) t)).
    rewrite Hout, sort_stable.
    apply before_filter; [| |done]; unfold startsAt; apply bool_decide_eq_true; congruence. }
  split; [|split].
  - intros t. rewrite Hout, sort_stable. by rewrite !List.filter_app.
  - exact Hties.
  - intros a b [[Ha Hb]|[[Ha Hb]|[Ha Hb]]]; apply Hties.
    + apply in_app_before; [done|]. apply in_or_app. by left.
    + apply in_app_before; [done|]. apply in_or_app. by right.
    + apply before_app_r. by apply in_app_before.
Qed.

(** The events of the example that start at 10:00 on 2025-01-15: the
    practice, then the game. *)
Lemma C3_ties_keep_query_order_witness :
  map (fun r => get r "id")
    (List.filter (startsAt (startOf IsoDate.parse) 1736935200000)
       (PlayerSchedules.schedules
          (PlayerSchedules.loadData IsoDate.parse Example.loggedIn
             (Example.backend Example.db) PlayerSchedules.initial)))
  = [VStr "p1"; VStr "g1"].
Proof.
  rewrite (proj1 (C3_ties_keep_query_order IsoDate.parse Example.loggedIn
            (Example.backend Example.db) Example.team1 PlayerSchedules.initial
            ltac:(vm_compute; reflexivity) ltac:(vm_compute; reflexivity)
            ltac:(vm_compute; reflexivity) ltac:(vm_compute; reflexivity))).
  vm_compute. reflexivity.
Defined.

(** C7 (all sources fail). On the player page, when the three source
    queries all fail, the fetch stores the empty sequence and leaves the
    page without an error. *)
Theorem C7_all_sources_fail (Date_parse : string -> option Z)
    (getUser : AuthResponse) (supabase : Query -> PostgrestResponse)
    (team : Row) (st : PlayerSchedules.State) (e1 e2 e3 : PostgrestError) :
  PlayerSchedules.findTeam getUser supabase = inr (Some team) ->
  supabase (PlayerSchedules.practiceQuery (get team "id")) = Failure e1 ->
  supabase (PlayerSchedules.meetingQuery (get team "id")) = Failure e2 ->
  supabase (PlayerSchedules.gameQuery (get team "id")) = Failure e3 ->
  let final := PlayerSchedules.loadData Date_parse getUser supabase st in
  PlayerSchedules.schedules final = []
  /\ PlayerSchedules.error final = None
  /\ PlayerSchedules.loading final = false.
Proof.
  intros Hteam H1 H2 H3 final. subst final. repeat split.
  - rewrite (PlayerFacts.loadData_schedules _ _ _ _ _ Hteam).
    by rewrite H1, H2, H3.
  - by apply PlayerFacts.loadData_error with team.
Qed.

Lemma C7_all_sources_fail_witness :
  PlayerSchedules.schedules
    (PlayerSchedules.loadData IsoDate.parse Example.loggedIn Example.offline
       PlayerSchedules.initial) = []
  /\ PlayerSchedules.error
       (PlayerSchedules.loadData IsoDate.parse Example.loggedIn Example.offline
          PlayerSchedules.initial) = None
  /\ PlayerSchedules.loading
       (PlayerSchedules.loadData IsoDate.parse Example.loggedIn Example.offline
          PlayerSchedules.initial) = false.
Proof.
  apply (C7_all_sources_fail IsoDate.parse Example.loggedIn Example.offline
           Example.team1 PlayerSchedules.initial
           (mkError "Failed to fetch" "") (mkError "Failed to fetch" "")
           (mkError "Failed to fetch" ""));
    vm_compute; reflexivity.
Defined.

(** C1 (partial failure), as amended. On the player page, when exactly one
    of the three source queries fails, the call does not fail: the failed
    source contributes no events, its error is logged with [console.error],
    [error] stays unset, and the stored sequence is the sorted merge of the
    events of the two sources that answered. On the coach page the same
    holds when the meeting or the game query is the one that fails, the
    error being logged with [console.warn] unless its code is 42P01; when
    the practice query fails the call ends in the error state 'Failed to
    load schedules.', logged with [console.error], and the stored sequence
    is left as it was. In no case does an exception leave the call. *)
Theorem C1_partial_failure (Date_parse : string -> option Z)
    (getUser : AuthResponse) (supabase : Query -> PostgrestResponse) :
  (forall team st P M G e,
     PlayerSchedules.findTeam getUser supabase = inr (Some team) ->
     let practiceRes := supabase (PlayerSchedules.practiceQuery (get team "id")) in
     let meetingRes := supabase (PlayerSchedules.meetingQuery (get team "id")) in
     let gameRes := supabase (PlayerSchedules.gameQuery (get team "id")) in
     let final := PlayerSchedules.loadData Date_parse getUser supabase st in
     let stored l := PlayerSchedules.schedules final
                     = sort (PlayerSchedules.compareStart Date_parse) l in
     let logs entry := PlayerSchedules.console final
                       = (PlayerSchedules.console st ++ [entry])%list in
     PlayerSchedules.error final = None
     /\ PlayerSchedules.loading final = false
     /\ (practiceRes = Failure e -> meetingRes = Success M -> gameRes = Success G ->
         stored (map PlayerSchedules.tagMeeting M ++ map (PlayerSchedules.tagGame team) G)%list
         /\ logs (ConsoleError "Practice schedules error:" e))
     /\ (practiceRes = Success P -> meetingRes = Failure e -> gameRes = Success G ->
         stored (map PlayerSchedules.tagPractice P ++ map (PlayerSchedules.tagGame team) G)%list
         /\ logs (ConsoleError "Meeting schedules error:" e))
     /\ (practiceRes = Success P -> meetingRes = Success M -> gameRes = Failure e ->
         stored (map PlayerSchedules.tagPractice P ++ map PlayerSchedules.tagMeeting M)%list
         /\ logs (ConsoleError "Game schedules error:" e)))
  /\
  (forall teamId st P M G e,
     let practiceRes := supabase (CoachSchedules.practiceQuery teamId) in
     let meetingRes := supabase (CoachSchedules.meetingQuery teamId) in
     let gameRes := supabase (CoachSchedules.gameQuery teamId) in
     let final := CoachSchedules.fetchAllSchedules Date_parse supabase teamId st in
     let stored l := CoachSchedules.schedules final
                     = sort (CoachSchedules.compareStart Date_parse) l in
     let logs entries := CoachSchedules.console final
                         = (CoachSchedules.console st ++ entries)%list in
     CoachSchedules.loading final = false
     /\ (practiceRes = Success P -> meetingRes = Failure e -> gameRes = Success G ->
         stored (map CoachSchedules.ofPractice P ++ map CoachSchedules.ofGame G)%list
         /\ CoachSchedules.error final = CoachSchedules.error st
         /\ logs (if String.eqb (code e) "42P01" then []
                  else [ConsoleWarn "Meeting schedules error:" e]))
     /\ (practiceRes = Success P -> meetingRes = Success M -> gameRes = Failure e ->
         stored (map CoachSchedules.ofPractice P ++ map CoachSchedules.ofMeeting M)%list
         /\ CoachSchedules.error final = CoachSchedules.error st
         /\ logs (if String.eqb (code e) "42P01" then []
                  else [ConsoleWarn "Game schedules error:" e]))
     /\ (practiceRes = Failure e ->
         CoachSchedules.schedules final = CoachSchedules.schedules st
         /\ CoachSchedules.error final = Some "Failed to load schedules."
         /\ logs [ConsoleError "Error fetching schedules:" e])).
Proof.
  split.
  - intros team st P M G e Hteam practiceRes meetingRes gameRes final stored logs.
    subst stored logs final.
    pose proof (PlayerFacts.loadData_schedules Date_parse _ _ _ st Hteam) as Hs.
    pose proof (PlayerFacts.loadData_console Date_parse _ _ _ st Hteam) as Hc.
    fold practiceRes meetingRes gameRes in Hs, Hc. unfold playerMerged, logged in *.
    split; [by apply PlayerFacts.loadData_error with team|].
    split; [reflexivity|].
    repeat apply conj; intros H1 H2 H3; rewrite Hs, Hc, H1, H2, H3; simpl;
      by rewrite ?app_nil_r.
  - intros teamId st P M G e practiceRes meetingRes gameRes final stored logs.
    subst stored logs final.
    split; [reflexivity|].
    repeat apply conj.
    + intros H1 H2 H3.
      rewrite (CoachFacts.fetchAllSchedules_schedules Date_parse _ _ st _ H1).
      rewrite (CoachFacts.fetchAllSchedules_error Date_parse _ _ st _ H1).
      rewrite (CoachFacts.fetchAllSchedules_console Date_parse _ _ st _ H1).
      fold meetingRes gameRes. unfold coachMerged, warned. rewrite H2, H3. simpl.
      by rewrite app_nil_r.
    + intros H1 H2 H3.
      rewrite (CoachFacts.fetchAllSchedules_schedules Date_parse _ _ st _ H1).
      rewrite (CoachFacts.fetchAllSchedules_error Date_parse _ _ st _ H1).
      rewrite (CoachFacts.fetchAllSchedules_console Date_parse _ _ st _ H1).
      fold meetingRes gameRes. unfold coachMerged, warned. rewrite H2, H3. simpl.
      by rewrite app_nil_r.
    + intros H1.
      by rewrite (CoachFacts.fetchAllSchedules_practice_failed Date_parse _ _ st _ H1).
Qed.

(** On the player page the game table is missing: the practices and the
    meeting are stored. On the coach page the meeting table is missing: the
    practices and the game are stored. On the coach page the practice table
    is missing: the error state. *)
Lemma C1_partial_failure_witness :
  map (fun r => get r "id")
    (PlayerSchedules.schedules
       (PlayerSchedules.loadData IsoDate.parse Example.loggedIn
          (Example.backend (Example.without "schedules" Example.db))
          PlayerSchedules.initial))
  = [VStr "p1"; VStr "m1"; VStr "p2"]
  /\ map CoachSchedules.id
       (CoachSchedules.schedules
          (CoachSchedules.fetchAllSchedules IsoDate.parse
             (Example.backend (Example.without "meeting_schedules" Example.coachDb))
             "T1" CoachSchedules.initial))
     = [VStr "p1"; VStr "p2"; VStr "cg1"]
  /\ CoachSchedules.error
       (CoachSchedules.fetchAllSchedules IsoDate.parse
          (Example.backend (Example.without "practice_schedules" Example.coachDb))
          "T1" CoachSchedules.initial)
     = Some "Failed to load schedules.".
Proof.
  pose (missing := mkError "relation does not exist" "42P01").
  split; [|split].
  - pose proof (proj1 (C1_partial_failure IsoDate.parse Example.loggedIn
                         (Example.backend (Example.without "schedules" Example.db)))
                  Example.team1 PlayerSchedules.initial
                  [Example.practiceA; Example.practiceB] [Example.meetingA] []
                  missing ltac:(vm_compute; reflexivity)) as (_ & _ & _ & _ & H).
    rewrite (proj1 (H ltac:(vm_compute; reflexivity) ltac:(vm_compute; reflexivity)
                      ltac:(vm_compute; reflexivity))).
    vm_compute. reflexivity.
  - pose proof (proj2 (C1_partial_failure IsoDate.parse Example.loggedIn
                         (Example.backend (Example.without "meeting_schedules" Example.coachDb)))
                  "T1" CoachSchedules.initial
                  [Example.practiceA; Example.practiceB] [] [Example.coachGame] missing)
      as (_ & H & _).
    rewrite (proj1 (H ltac:(vm_compute; reflexivity) ltac:(vm_compute; reflexivity)
                      ltac:(vm_compute; reflexivity))).
    vm_compute. reflexivity.
  - pose proof (proj2 (C1_partial_failure IsoDate.parse Example.loggedIn
                         (Example.backend (Example.without "practice_schedules" Example.coachDb)))
                  "T1" CoachSchedules.initial [] [] [] missing)
      as (_ & _ & _ & H).
    exact (proj1 (proj2 (H ltac:(vm_compute; reflexivity)))).
Defined.

(** C1 as stated fails on the coach page: with the practice query the only
    one that fails, the call ends in the error state and stores nothing,
    while the backend has a meeting and a game to answer the other two
    queries with. *)
Lemma C1_counterexample :
  let supabase := Example.backend (Example.without "practice_schedules" Example.coachDb) in
  let final := CoachSchedules.fetchAllSchedules IsoDate.parse supabase "T1"
                 CoachSchedules.initial in
  Supabase.error (supabase (CoachSchedules.practiceQuery "T1")) <> None
  /\ Supabase.error (supabase (CoachSchedules.meetingQuery "T1")) = None
  /\ Supabase.error (supabase (CoachSchedules.gameQuery "T1")) = None
  /\ CoachSchedules.error final = Some "Failed to load schedules."
  /\ CoachSchedules.schedules final = []
  /\ map CoachSchedules.id
       (sort (CoachSchedules.compareStart IsoDate.parse)
          (map CoachSchedules.ofMeeting (rowsOf (supabase (CoachSchedules.meetingQuery "T1")))
             ++ map CoachSchedules.ofGame (rowsOf (supabase (CoachSchedules.gameQuery "T1"))))%list)
     = [VStr "m1"; VStr "cg1"].
Proof. vm_compute. repeat split; discriminate. Qed.

(** C4 (malformed rows), as amended. The player page has no check of [id]
    or [start_time] and raises no error for a row: every row of every
    response that arrived, with or without these fields, is tagged and
    stored, so the stored sequence is a rearrangement of all tagged rows and
    the fetch never fails because of a row. *)
Theorem C4_rows_are_not_validated (Date_parse : string -> option Z)
    (getUser : AuthResponse) (supabase : Query -> PostgrestResponse)
    (team : Row) (st : PlayerSchedules.State) :
  PlayerSchedules.findTeam getUser supabase = inr (Some team) ->
  let practices := rowsOf (supabase (PlayerSchedules.practiceQuery (get team "id"))) in
  let meetings := rowsOf (supabase (PlayerSchedules.meetingQuery (get team "id"))) in
  let games := rowsOf (supabase (PlayerSchedules.gameQuery (get team "id"))) in
  let final := PlayerSchedules.loadData Date_parse getUser supabase st in
  PlayerSchedules.schedules final
    ≡ₚ (map PlayerSchedules.tagPractice practices
          ++ map PlayerSchedules.tagMeeting meetings
          ++ map (PlayerSchedules.tagGame team) games)%list
  /\ length (PlayerSchedules.schedules final)
     = (length practices + length meetings + length games)%nat
  /\ (forall r, In r practices ->
        In (PlayerSchedules.tagPractice r) (PlayerSchedules.schedules final))
  /\ (forall r, In r meetings ->
        In (PlayerSchedules.tagMeeting r) (PlayerSchedules.schedules final))
  /\ (forall r, In r games ->
        In (PlayerSchedules.tagGame team r) (PlayerSchedules.schedules final))
  /\ PlayerSchedules.error final = None.
Proof.
  intros Hteam practices meetings games final. subst final.
  rewrite (PlayerFacts.loadData_schedules _ _ _ _ _ Hteam).
  fold practices meetings games. unfold playerMerged.
  fold practices meetings games.
  split; [apply sort_Permutation|].
  split; [rewrite sort_length, !length_app, !length_map; lia|].
  repeat split.
  - intros r Hr. apply sort_In, in_or_app. left. by apply in_map.
  - intros r Hr. apply sort_In, in_or_app. right. apply in_or_app. left. by apply in_map.
  - intros r Hr. apply sort_In, in_or_app. right. apply in_or_app. right. by apply in_map.
  - by apply PlayerFacts.loadData_error with team.
Qed.

Lemma C4_rows_are_not_validated_witness :
  length
    (PlayerSchedules.schedules
       (PlayerSchedules.loadData IsoDate.parse Example.loggedIn
          (Example.backend Example.dbNull) PlayerSchedules.initial))
  = 5%nat.
Proof.
  rewrite (proj1 (proj2 (C4_rows_are_not_validated IsoDate.parse
            Example.loggedIn (Example.backend Example.dbNull) Example.team1
            PlayerSchedules.initial ltac:(vm_compute; reflexivity)))).
  vm_compute. reflexivity.
Defined.

(** C4 as stated fails: of a batch of three practice rows, the one whose
    [start_time] is [null] is not skipped. It is stored with its two
    siblings (and the meeting and the game), five events in all, and sorts
    first, [new Date(null)] being the epoch. *)
Lemma C4_counterexample :
  let final := PlayerSchedules.loadData IsoDate.parse Example.loggedIn
                 (Example.backend Example.dbNull) PlayerSchedules.initial in
  rowsOf (Example.backend Example.dbNull (PlayerSchedules.practiceQuery (VStr "T1")))
  = [Example.practiceA; Example.practiceB; Example.practiceNull]
  /\ get Example.practiceNull "start_time" = VNull
  /\ PlayerSchedules.tagPractice Example.practiceNull ∈ PlayerSchedules.schedules final
  /\ map (fun r => get r "id") (PlayerSchedules.schedules final)
     = [VStr "p3"; VStr "p1"; VStr "g1"; VStr "m1"; VStr "p2"]
  /\ PlayerSchedules.error final = None
  /\ PlayerSchedules.console final = [].
Proof. cbv zeta. repeat apply conj; compute_done. Qed.


(** C6 (no synthesized fields), as amended. Tagging a row copies every
    property of the row unchanged and adds nothing else, except for the
    tags: [type] and [source_table] are set from the source, and on a game
    row [team_id] is set to the id of the player's team. A property that is
    absent from the row and is not one of these stays absent. *)
Theorem C6_tags_frame (team schedule : JS.Row) (k : string) :
  (k <> "type" -> k <> "source_table" ->
     PlayerSchedules.tagPractice schedule !! k = schedule !! k
     /\ PlayerSchedules.tagMeeting schedule !! k = schedule !! k)
  /\ (k <> "type" -> k <> "source_table" -> k <> "team_id" ->
        PlayerSchedules.tagGame team schedule !! k = schedule !! k)
  /\ PlayerSchedules.tagPractice schedule !! "type" = Some (VStr "practice")
  /\ PlayerSchedules.tagPractice schedule !! "source_table" = Some (VStr "practice_schedules")
  /\ PlayerSchedules.tagMeeting schedule !! "type" = Some (VStr "meeting")
  /\ PlayerSchedules.tagMeeting schedule !! "source_table" = Some (VStr "meeting_schedules")
  /\ PlayerSchedules.tagGame team schedule !! "type" = Some (VStr "game")
  /\ PlayerSchedules.tagGame team schedule !! "source_table" = Some (VStr "schedules")
  /\ PlayerSchedules.tagGame team schedule !! "team_id" = Some (get team "id").
Proof.
  unfold PlayerSchedules.tagPractice, PlayerSchedules.tagMeeting, PlayerSchedules.tagGame.
  repeat split; intros; by simplify_map_eq.
Qed.

Lemma C6_tags_frame_witness :
  PlayerSchedules.tagPractice Example.practiceA !! "subtype" = Example.practiceA !! "subtype"
  /\ PlayerSchedules.tagGame Example.team1 Example.gameA !! "location"
     = Example.gameA !! "location".
Proof.
  split.
  - apply (proj1 (C6_tags_frame Example.team1 Example.practiceA "subtype"));
      discriminate.
  - apply (proj1 (proj2 (C6_tags_frame Example.team1 Example.gameA "location")));
      discriminate.
Defined.

(** C6 as stated fails: the game row has no [team_id], and its event has
    one. *)
Lemma C6_counterexample :
  Example.gameA !! "team_id" = None
  /\ PlayerSchedules.tagGame Example.team1 Example.gameA !! "team_id" = Some (VStr "T1").
Proof. split; compute_done. Qed.

(** C5 (game source query), as amended. On the player's schedule page and
    on the player dashboard the game query reads the table [schedules] and
    selects the rows whose [team1_id] or [team2_id] equals the team id, with
    the time filter of the practice and meeting queries (none on the
    schedule page, [start_time >= now] on the dashboard) and their ordering
    (and row limit). On the coach page the game query reads the table
    [game_schedules] and selects the rows whose [team_id] equals the team
    id, with the ordering of the other two queries. *)
Theorem C5_game_query (Date_parse : string -> option Z) (teamId : value)
    (coachTeamId currentDate : string) (row : Row) :
  let either := sql_eq (get row "team1_id") teamId || sql_eq (get row "team2_id") teamId in
  let upcoming := matches Date_parse (Gte "start_time" (VStr currentDate)) row in
  (table (PlayerSchedules.gameQuery teamId) = "schedules"
   /\ matchesAll Date_parse (PlayerSchedules.gameQuery teamId) row = either
   /\ matchesAll Date_parse (PlayerSchedules.practiceQuery teamId) row
      = sql_eq (get row "team_id") teamId
   /\ matchesAll Date_parse (PlayerSchedules.meetingQuery teamId) row
      = sql_eq (get row "team_id") teamId
   /\ ordering (PlayerSchedules.gameQuery teamId) = [("start_time", true)]
   /\ ordering (PlayerSchedules.practiceQuery teamId) = [("start_time", true)]
   /\ ordering (PlayerSchedules.meetingQuery teamId) = [("start_time", true)]
   /\ (forall db rows,
         db "schedules" = Some rows ->
         In row (rowsOf (queryRows Date_parse db (PlayerSchedules.gameQuery teamId)))
         <-> In row rows /\ either = true))
  /\
  (table (PlayerDashboard.gameQuery teamId currentDate) = "schedules"
   /\ matchesAll Date_parse (PlayerDashboard.gameQuery teamId currentDate) row
      = either && upcoming
   /\ matchesAll Date_parse (PlayerDashboard.practiceQuery teamId currentDate) row
      = sql_eq (get row "team_id") teamId && upcoming
   /\ matchesAll Date_parse (PlayerDashboard.meetingQuery teamId currentDate) row
      = sql_eq (get row "team_id") teamId && upcoming
   /\ ordering (PlayerDashboard.gameQuery teamId currentDate) = [("start_time", true)]
   /\ ordering (PlayerDashboard.practiceQuery teamId currentDate) = [("start_time", true)]
   /\ ordering (PlayerDashboard.meetingQuery teamId currentDate) = [("start_time", true)]
   /\ rowLimit (PlayerDashboard.gameQuery teamId currentDate) = Some 10%nat
   /\ rowLimit (PlayerDashboard.practiceQuery teamId currentDate) = Some 10%nat
   /\ rowLimit (PlayerDashboard.meetingQuery teamId currentDate) = Some 10%nat)
  /\
  (table (CoachSchedules.gameQuery coachTeamId) = "game_schedules"
   /\ matchesAll Date_parse (CoachSchedules.gameQuery coachTeamId) row
      = sql_eq (get row "team_id") (VStr coachTeamId)
   /\ ordering (CoachSchedules.gameQuery coachTeamId) = [("start_time", true)]
   /\ ordering (CoachSchedules.practiceQuery coachTeamId) = [("start_time", true)]
   /\ ordering (CoachSchedules.meetingQuery coachTeamId) = [("start_time", true)]).
Proof.
  intros either upcoming. subst either upcoming.
  assert (Hgame : matchesAll Date_parse (PlayerSchedules.gameQuery teamId) row
                  = sql_eq (get row "team1_id") teamId || sql_eq (get row "team2_id") teamId).
  { unfold matchesAll. simpl. by rewrite orb_false_r, andb_true_r. }
  split; [|split].
  - repeat apply conj; try reflexivity; try exact Hgame.
    + unfold matchesAll. simpl. by rewrite andb_true_r.
    + unfold matchesAll. simpl. by rewrite andb_true_r.
    + intros db rows Hdb. rewrite <- Hgame.
      unfold queryRows, rowsOf. change (table (PlayerSchedules.gameQuery teamId)) with "schedules".
      rewrite Hdb. simpl.
      rewrite sort_In, List.filter_In. reflexivity.
  - repeat apply conj; try reflexivity.
    + unfold matchesAll. simpl. by rewrite orb_false_r, andb_true_r.
    + unfold matchesAll. simpl. by rewrite andb_true_r.
    + unfold matchesAll. simpl. by rewrite andb_true_r.
  - repeat apply conj; try reflexivity.
    unfold matchesAll. simpl. by rewrite andb_true_r.
Qed.

(** The game of the example is among the rows selected for its second team,
    T1. *)
Lemma C5_game_query_witness :
  In Example.gameA
    (rowsOf (queryRows IsoDate.parse Example.db (PlayerSchedules.gameQuery (VStr "T1")))).
Proof.
  apply (proj2 (proj2 (proj2 (proj2 (proj2 (proj2 (proj2 (proj1
           (C5_game_query IsoDate.parse (VStr "T1") "T1" "2025-01-01T00:00:00Z"
              Example.gameA)))))))) Example.db [Example.gameOther; Example.gameA] eq_refl).
  split; [right; left; reflexivity|compute_done].
Defined.

(** C5 as stated fails on the coach page: its game query reads
    [game_schedules] and compares [team_id]. It rejects a game whose
    [team2_id] is the team, and selects a row that has neither [team1_id]
    nor [team2_id]. *)
Lemma C5_counterexample :
  table (CoachSchedules.gameQuery "T1") = "game_schedules"
  /\ get Example.gameA "team2_id" = VStr "T1"
  /\ matchesAll IsoDate.parse (CoachSchedules.gameQuery "T1") Example.gameA = false
  /\ get Example.coachGame "team1_id" = VUndefined
  /\ get Example.coachGame "team2_id" = VUndefined
  /\ rowsOf (Example.backend Example.coachDb (CoachSchedules.gameQuery "T1"))
     = [Example.coachGame].
Proof. repeat apply conj; compute_done. Qed.

(** C8 (partition by time). For events that all have a start time, the
    events the player page shows as upcoming are those that start after the
    reference instant, the ones it shows as past are those that start at or
    before it; the two lists keep the display order, have no event in
    common, and together hold every event once. *)
Theorem C8_partition_by_time (Date_parse : string -> option Z) (now : Z)
    (events : list Row) :
  Forall (fun e => hasTime (startOf Date_parse) e = true) events ->
  let upcoming := fst (PlayerSchedules.partitionByTime Date_parse now events) in
  let past := snd (PlayerSchedules.partitionByTime Date_parse now events) in
  PlayerSchedules.partitionByTime Date_parse now events
    = partitionByTime_spec Date_parse now events
  /\ (forall e, In e upcoming <->
        In e events /\ exists t, startOf Date_parse e = Some t /\ (now < t)%Z)
  /\ (forall e, In e past <->
        In e events /\ exists t, startOf Date_parse e = Some t /\ (t <= now)%Z)
  /\ (upcoming ++ past)%list ≡ₚ events
  /\ (length upcoming + length past = length events)%nat
  /\ (forall e, ~ (In e upcoming /\ In e past))
  /\ sublist upcoming events
  /\ sublist past events.
Proof.
  intros Htimed upcoming past.
  set (up := fun e : Row => PlayerSchedules.isUpcoming Date_parse now (get e "start_time")).
  assert (Hboth : PlayerSchedules.partitionByTime Date_parse now events
                  = (List.filter up events, List.filter (fun e => negb (up e)) events)).
  { apply PlayerFacts.partitionByTime_filter. }
  assert (Hup : upcoming = List.filter up events) by (subst upcoming; by rewrite Hboth).
  assert (Hpast : past = List.filter (fun e => negb (up e)) events)
    by (subst past; by rewrite Hboth).
  clearbody upcoming past.
  assert (Hgt : forall e, up e = true <-> exists t, startOf Date_parse e = Some t /\ (now < t)%Z).
  { intros e. unfold up, PlayerSchedules.isUpcoming, dateAfter, startOf.
    destruct (getTime Date_parse (get e "start_time")) as [t|].
    - rewrite Z.ltb_lt. split; [by exists t|]. by intros (t' & [= <-] & H).
    - split; [done|]. by intros (t' & [=] & _). }
  assert (Hle : forall e, In e events ->
            (negb (up e) = true <-> exists t, startOf Date_parse e = Some t /\ (t <= now)%Z)).
  { intros e He. rewrite List.Forall_forall in Htimed. specialize (Htimed e He).
    unfold up, PlayerSchedules.isUpcoming, dateAfter, hasTime, startOf in *.
    destruct (getTime Date_parse (get e "start_time")) as [t|]; [|done].
    rewrite negb_true_iff, Z.ltb_ge. split; [by exists t|]. by intros (t' & [= <-] & H). }
  repeat apply conj.
  - rewrite Hboth. unfold partitionByTime_spec. f_equal.
    apply filter_ext_in. intros e He.
    rewrite List.Forall_forall in Htimed. specialize (Htimed e He).
    unfold up, PlayerSchedules.isUpcoming, dateAfter, hasTime, startOf in *.
    destruct (getTime Date_parse (get e "start_time")) as [t|]; [|done].
    apply eq_true_iff_eq. rewrite negb_true_iff, Z.ltb_ge, Z.leb_le. reflexivity.
  - intros e. rewrite Hup, List.filter_In, Hgt. reflexivity.
  - intros e. rewrite Hpast, List.filter_In. split.
    + intros [He H]. split; [done|]. by apply Hle.
    + intros [He H]. split; [done|]. by apply Hle.
  - rewrite Hup, Hpast. clear. induction events as [|e l IH]; [done|]. simpl.
    destruct (up e); simpl.
    + by rewrite IH.
    + rewrite <- Permutation_middle. by rewrite IH.
  - rewrite Hup, Hpast. clear. induction events as [|e l IH]; [done|]. simpl.
    destruct (up e); simpl; lia.
  - intros e. rewrite Hup, Hpast, !List.filter_In. intros [[_ H1] [_ H2]].
    rewrite H1 in H2. discriminate.
  - rewrite Hup. clear. induction events as [|e l IH]; simpl; [constructor|].
    destruct (up e); by constructor.
  - rewrite Hpast. clear. induction events as [|e l IH]; simpl; [constructor|].
    destruct (up e); by constructor.
Qed.

(** The four events of the example at noon of 2025-01-15, the instant the
    meeting starts: one upcoming practice, and three past events. *)
Lemma C8_partition_by_time_witness :
  PlayerSchedules.partitionByTime IsoDate.parse 1736942400000
    [Example.practiceA; Example.gameA; Example.meetingA; Example.practiceB]
  = partitionByTime_spec IsoDate.parse 1736942400000
      [Example.practiceA; Example.gameA; Example.meetingA; Example.practiceB].
Proof.
  exact (proj1 (C8_partition_by_time IsoDate.parse 1736942400000
                  [Example.practiceA; Example.gameA; Example.meetingA; Example.practiceB]
                  ltac:(compute_done))).
Defined.

(** C9 (filter by type). The filter of the player page is a total function
    of the stored events and the chosen type: its result is a subsequence of
    the events in their order, holds exactly the events whose [type] is the
    chosen one (all events for 'all'), and filtering the result again gives
    the result. The filter of the coach page does the same when the search
    box is empty; with a search term it narrows the result further, and is
    idempotent whenever it returns. *)
Theorem C9_filter_by_type (toLowerCase : string -> string) :
  (forall st : PlayerSchedules.State,
     let out := PlayerSchedules.filteredSchedules st in
     sublist out (PlayerSchedules.schedules st)
     /\ (forall e, In e out <->
           In e (PlayerSchedules.schedules st)
           /\ (PlayerSchedules.activeFilter st = PlayerSchedules.all
               \/ get e "type"
                  = VStr (PlayerSchedules.filterName (PlayerSchedules.activeFilter st))))
     /\ (PlayerSchedules.activeFilter st = PlayerSchedules.all ->
         out = PlayerSchedules.schedules st)
     /\ PlayerSchedules.filteredSchedules (PlayerSchedules.setSchedules out st) = out)
  /\
  (forall st : CoachSchedules.State,
     CoachSchedules.searchTerm st = "" ->
     exists out,
       CoachSchedules.filteredSchedules toLowerCase st = Some out
       /\ sublist out (CoachSchedules.schedules st)
       /\ (forall e, In e out <->
             In e (CoachSchedules.schedules st)
             /\ (CoachSchedules.filter st = CoachSchedules.all
                 \/ CoachSchedules.type e
                    = CoachSchedules.filterName (CoachSchedules.filter st)))
       /\ (CoachSchedules.filter st = CoachSchedules.all ->
           out = CoachSchedules.schedules st)
       /\ CoachSchedules.filteredSchedules toLowerCase
            (CoachSchedules.setSchedules out st) = Some out)
  /\
  (forall (st : CoachSchedules.State) out,
     CoachSchedules.filteredSchedules toLowerCase st = Some out ->
     sublist out (CoachSchedules.schedules st)
     /\ (forall e, In e out ->
           CoachSchedules.filter st = CoachSchedules.all
           \/ CoachSchedules.type e
              = CoachSchedules.filterName (CoachSchedules.filter st))
     /\ CoachSchedules.filteredSchedules toLowerCase
          (CoachSchedules.setSchedules out st) = Some out).
Proof.
  split; [|split].
  - intros st out. subst out. unfold PlayerSchedules.filteredSchedules.
    destruct st as [team l ld err f con]. simpl.
    repeat apply conj.
    + apply sublist_List_filter.
    + intros e. rewrite List.filter_In. unfold strict_eq.
      destruct f; simpl; rewrite ?bool_decide_eq_true; intuition discriminate.
    + intros ->. apply List_filter_all. done.
    + apply List_filter_idem.
  - intros st Hsearch. destruct st as [l ld err f term con]. simpl in *. subst term.
    exists (List.filter (fun e => match f with
                              | CoachSchedules.all => true
                              | _ => String.eqb (CoachSchedules.type e) (CoachSchedules.filterName f)
                              end) l).
    assert (Hkeep : forall e, CoachSchedules.keep toLowerCase f "" e
              = Some match f with
                     | CoachSchedules.all => true
                     | _ => String.eqb (CoachSchedules.type e) (CoachSchedules.filterName f)
                     end).
    { intros e. unfold CoachSchedules.keep.
      destruct f; simpl; try done;
        by destruct (String.eqb (CoachSchedules.type e) _). }
    unfold CoachSchedules.filteredSchedules. simpl.
    repeat apply conj.
    + apply filterM_total, Hkeep.
    + apply sublist_List_filter.
    + intros e. rewrite List.filter_In.
      destruct f; simpl; rewrite ?String.eqb_eq; intuition discriminate.
    + intros ->. apply List_filter_all. done.
    + rewrite (filterM_total _ _ _ Hkeep). by rewrite List_filter_idem.
  - intros st out H. unfold CoachSchedules.filteredSchedules in *.
    destruct st as [l ld err f term con]. simpl in *.
    repeat apply conj.
    + by eapply filterM_sublist.
    + intros e He. pose proof (filterM_kept _ _ _ H e He) as Hk.
      unfold CoachSchedules.keep in Hk.
      destruct f; [by left|right..];
        (destruct (String.eqb (CoachSchedules.type e) _) eqn:E;
         [by apply String.eqb_eq in E|simpl in Hk; discriminate]).
    + by eapply filterM_idem.
Qed.

Lemma C9_filter_by_type_witness :
  CoachSchedules.filteredSchedules (fun s => s)
    (CoachSchedules.fetchAllSchedules IsoDate.parse
       (Example.backend Example.coachDb) "T1" CoachSchedules.initial)
  = Some (CoachSchedules.schedules
            (CoachSchedules.fetchAllSchedules IsoDate.parse
               (Example.backend Example.coachDb) "T1" CoachSchedules.initial)).
Proof.
  destruct (proj1 (proj2 (C9_filter_by_type (fun s => s)))
              (CoachSchedules.fetchAllSchedules IsoDate.parse
                 (Example.backend Example.coachDb) "T1" CoachSchedules.initial)
              eq_refl) as (out & Hout & _ & _ & Hall & _).
  rewrite Hout. f_equal. apply Hall. reflexivity.
Defined.

(** C10 (dashboard). Each source query of the player dashboard carries the
    row limit 10, so the data source answers it with at most ten rows; the
    displayed list is the first five of the fetched events sorted by start
    time. When every fetched row has a start time that parses, the list has
    at most five events (all of them when fewer were fetched), is sorted,
    and no event left out starts before a displayed one. *)
Theorem C10_dashboard_upcoming (Date_parse : string -> option Z)
    (getUser : AuthResponse) (supabase : Query -> PostgrestResponse)
    (currentDate : string) (u team : Row) (st : PlayerDashboard.State) :
  PlayerDashboard.findTeam getUser supabase = Some (u, team) ->
  let practiceQ := PlayerDashboard.practiceQuery (get team "id") currentDate in
  let meetingQ := PlayerDashboard.meetingQuery (get team "id") currentDate in
  let gameQ := PlayerDashboard.gameQuery (get team "id") currentDate in
  allTimed Date_parse (supabase practiceQ) = true ->
  allTimed Date_parse (supabase meetingQ) = true ->
  allTimed Date_parse (supabase gameQ) = true ->
  let fetched := (map (PlayerDashboard.tagType "practice") (rowsOf (supabase practiceQ))
                    ++ map (PlayerDashboard.tagType "meeting") (rowsOf (supabase meetingQ))
                    ++ map (PlayerDashboard.tagType "game") (rowsOf (supabase gameQ)))%list in
  let sorted := sort (byStartTime Date_parse) fetched in
  let out := PlayerDashboard.upcomingEvents
               (PlayerDashboard.fetchPlayerData Date_parse getUser supabase currentDate st) in
  (rowLimit practiceQ = Some 10%nat /\ rowLimit meetingQ = Some 10%nat
   /\ rowLimit gameQ = Some 10%nat)
  /\ (forall db q, In q [practiceQ; meetingQ; gameQ] ->
        (length (rowsOf (queryRows Date_parse db q)) <= 10)%nat)
  /\ out = take 5 sorted
  /\ (length out <= 5)%nat
  /\ length out = Nat.min 5 (length fetched)
  /\ StronglySorted (timeLe (startOf Date_parse)) out
  /\ (out ++ drop 5 sorted)%list ≡ₚ fetched
  /\ (forall a b, In a out -> In b (drop 5 sorted) -> timeLe (startOf Date_parse) a b).
Proof.
  intros Hteam practiceQ meetingQ gameQ Hp Hm Hg fetched sorted out.
  assert (Hout : out = take 5 sorted).
  { apply (DashboardFacts.fetchPlayerData_upcoming _ _ _ _ _ _ _ Hteam). }
  assert (Hsorted : StronglySorted (timeLe (startOf Date_parse)) sorted).
  { apply sort_sorted. by apply DashboardFacts.dashboard_merged_timed. }
  repeat apply conj; try reflexivity.
  - intros db q [<-|[<-|[<-|[]]]]; by apply DashboardFacts.queryRows_limit.
  - exact Hout.
  - rewrite Hout, length_take. lia.
  - rewrite Hout, length_take. unfold sorted. rewrite sort_length. lia.
  - rewrite Hout. by apply StronglySorted_take.
  - rewrite Hout, take_drop. apply sort_Permutation.
  - intros a b Ha Hb. rewrite Hout in Ha. by eapply StronglySorted_take_drop.
Qed.

(** Seven events are fetched from the fuller calendar; the five earliest
    are displayed. *)
Lemma C10_dashboard_upcoming_witness :
  map (fun r => get r "id")
    (PlayerDashboard.upcomingEvents
       (PlayerDashboard.fetchPlayerData IsoDate.parse Example.loggedIn
          (Example.backend Example.busyDb) "2025-01-01T00:00:00Z"
          PlayerDashboard.initial))
  = [VStr "p1"; VStr "g1"; VStr "m1"; VStr "p2"; VStr "p4"].
Proof.
  rewrite (proj1 (proj2 (proj2 (C10_dashboard_upcoming IsoDate.parse Example.loggedIn
             (Example.backend Example.busyDb) "2025-01-01T00:00:00Z"
             Example.user1 Example.team1 PlayerDashboard.initial
             ltac:(vm_compute; reflexivity) ltac:(vm_compute; reflexivity)
             ltac:(vm_compute; reflexivity) ltac:(vm_compute; reflexivity))))).
  vm_compute. reflexivity.
Defined.

End Claims.


(** ** Facts about strings *)

Section TextFacts.
Import Text.

Lemma prefix_String a p b s :
  String.prefix (String a p) (String b s) = Ascii.eqb a b && String.prefix p s.
Proof.
  simpl. destruct (Ascii.ascii_dec a b) as [->|Hne].
  - by rewrite Ascii.eqb_refl.
  - apply Ascii.eqb_neq in Hne. by rewrite Hne.
Qed.

Lemma prefix_nil s : String.prefix "" s = true.
Proof. by destruct s. Qed.

Lemma keepChars_all p s : allChars p (keepChars p s) = true.
Proof.
  induction s as [|a r IH]; simpl; [done|].
  destruct (p a) eqn:E; simpl; [by rewrite E|done].
Qed.

Lemma keepChars_id p s : allChars p s = true -> keepChars p s = s.
Proof.
  induction s as [|a r IH]; simpl; [done|].
  intros [Ha Hr]%andb_true_iff. by rewrite Ha, IH.
Qed.

Lemma keepChars_length p s : (String.length (keepChars p s) <= String.length s)%nat.
Proof. induction s as [|a r IH]; simpl; [lia|]. destruct (p a); simpl; lia. Qed.

Lemma allChars_impl (p q : ascii -> bool) s :
  (forall a, p a = true -> q a = true) -> allChars p s = true -> allChars q s = true.
Proof.
  intros H. induction s as [|a r IH]; simpl; [done|].
  intros [Ha Hr]%andb_true_iff. by rewrite (H a Ha), IH.
Qed.

Lemma allChars_append p s t :
  allChars p (s +:+ t) = allChars p s && allChars p t.
Proof. induction s as [|a r IH]; simpl; [done|]. by rewrite IH, andb_assoc. Qed.

Lemma split_nonempty sep s : split sep s <> [].
Proof.
  induction s as [|a r IH]; simpl; [done|].
  destruct (Ascii.eqb a sep); [done|]. by destruct (split sep r).
Qed.

(** Splitting a text that starts with a piece free of the separator. *)
Lemma split_append_sep sep p s :
  allChars (fun a => negb (Ascii.eqb a sep)) p = true ->
  split sep (p +:+ String sep s) = p :: split sep s.
Proof.
  induction p as [|a r IH]; simpl.
  - by rewrite Ascii.eqb_refl.
  - intros [Ha Hr]%andb_true_iff. apply negb_true_iff in Ha. by rewrite Ha, IH.
Qed.

Lemma split_append_head sep p s :
  allChars (fun a => negb (Ascii.eqb a sep)) p = true ->
  exists h t, split sep s = h :: t /\ split sep (p +:+ s) = (p +:+ h) :: t.
Proof.
  intros Hp. destruct (split sep s) as [|h t] eqn:E; [by apply split_nonempty in E|].
  exists h, t. split; [done|].
  induction p as [|a r IH]; simpl; [done|].
  simpl in Hp. apply andb_true_iff in Hp as [Ha Hr]. apply negb_true_iff in Ha.
  by rewrite Ha, (IH Hr).
Qed.

Lemma split_none sep p :
  allChars (fun a => negb (Ascii.eqb a sep)) p = true -> split sep p = [p].
Proof.
  induction p as [|a r IH]; simpl; [done|].
  intros [Ha Hr]%andb_true_iff. apply negb_true_iff in Ha. by rewrite Ha, IH.
Qed.
End TextFacts.

(** ** The profile form *)

Module ProfileFacts.
Import JS Supabase Text PlayerProfileEdit.

(** The result of [formatPhoneNumber] by the shape of the digits of the
    input. *)
Lemma startsWith_String b s a p :
  startsWith (String b s) (String a p) = Ascii.eqb a b && startsWith s p.
Proof. apply prefix_String. Qed.

Lemma startsWith_nil s : startsWith s "" = true.
Proof. apply prefix_nil. Qed.

Lemma formatPhoneNumber_cases phone :
  let d := keepChars isDigit phone in
  formatPhoneNumber phone
  = match d with
    | EmptyString => EmptyString
    | String a r =>
        if Ascii.eqb "0" a then "+63" +:+ r
        else if startsWith d "63" then "+" +:+ d
        else "+63" +:+ d
    end.
Proof.
  unfold formatPhoneNumber. cbv zeta.
  destruct (keepChars isDigit phone) as [|a r]; [done|].
  rewrite (startsWith_String a r "0" ""), startsWith_nil, andb_true_r.
  destruct (Ascii.eqb "0" a) eqn:E0.
  - change ("63" +:+ slice1 (String a r)) with (String "6" (String "3" r)).
    rewrite !startsWith_String, startsWith_nil. reflexivity.
  - destruct (startsWith (String a r) "63") eqn:E63.
    + change (negb true && (0 <? String.length (String a r))%nat) with false. cbv iota.
      rewrite (startsWith_String a r "+" ""), startsWith_nil, andb_true_r.
      destruct (Ascii.eqb "+" a) eqn:Ep; [|done].
      apply Ascii.eqb_eq in Ep. subst a.
      rewrite startsWith_String in E63. discriminate.
    + change (negb false && (0 <? String.length (String a r))%nat) with true. cbv iota.
      reflexivity.
Qed.

(** On a string of digits nothing is removed first. *)
Lemma formatPhoneNumber_digits d :
  allChars isDigit d = true ->
  formatPhoneNumber d
  = match d with
    | EmptyString => EmptyString
    | String a r =>
        if Ascii.eqb "0" a then "+63" +:+ r
        else if startsWith d "63" then "+" +:+ d
        else "+63" +:+ d
    end.
Proof.
  intros Hd. rewrite formatPhoneNumber_cases. cbv zeta.
  by rewrite (keepChars_id _ _ Hd).
Qed.

Lemma formatPhoneNumber_keep phone :
  formatPhoneNumber (keepChars isDigit phone) = formatPhoneNumber phone.
Proof.
  rewrite (formatPhoneNumber_cases phone). cbv zeta.
  apply formatPhoneNumber_digits, keepChars_all.
Qed.

Lemma formatPhoneNumber_63 d :
  allChars isDigit d = true -> formatPhoneNumber ("63" +:+ d) = "+63" +:+ d.
Proof.
  intros Hd. rewrite formatPhoneNumber_digits by exact Hd.
  change ("63" +:+ d) with (String "6" (String "3" d)).
  rewrite !startsWith_String, startsWith_nil. reflexivity.
Qed.

Lemma formatPhoneNumber_plus63 d :
  allChars isDigit d = true -> formatPhoneNumber ("+63" +:+ d) = "+63" +:+ d.
Proof.
  intros Hd. rewrite <- formatPhoneNumber_keep.
  change (keepChars isDigit ("+63" +:+ d)) with (String "6" (String "3" (keepChars isDigit d))).
  rewrite (keepChars_id _ _ Hd). by apply formatPhoneNumber_63.
Qed.

Lemma formatPhoneNumber_out phone :
  formatPhoneNumber phone = ""
  \/ exists d, formatPhoneNumber phone = "+63" +:+ d /\ allChars isDigit d = true.
Proof.
  rewrite formatPhoneNumber_cases. cbv zeta.
  pose proof (keepChars_all isDigit phone) as Hall.
  destruct (keepChars isDigit phone) as [|a r] eqn:E; [by left|right].
  simpl in Hall. apply andb_true_iff in Hall as [Ha Hr].
  destruct (Ascii.eqb "0" a) eqn:E0; [by exists r|].
  destruct (startsWith (String a r) "63") eqn:E63.
  - destruct r as [|b r'].
    + rewrite startsWith_String in E63. by destruct (Ascii.eqb "6" a).
    + rewrite !startsWith_String in E63.
      apply andb_true_iff in E63 as [<-%Ascii.eqb_eq [<-%Ascii.eqb_eq _]%andb_true_iff].
      exists r'. split; [done|]. simpl in Hr. exact Hr.
  - exists (String a r). split; [done|]. simpl. by rewrite Ha, Hr.
Qed.
Lemma startsWith_plus63 d : startsWith ("+63" +:+ d) "+63" = true.
Proof.
  change ("+63" +:+ d) with (String "+" (String "6" (String "3" d))).
  rewrite !startsWith_String, startsWith_nil. reflexivity.
Qed.

(** The phone check of [handleSubmit] never holds a submission back: the
    update is sent, with [null] or a formatted number. *)
Lemma savePhone_sends (updateProfile : value -> value -> option PostgrestError)
    (nowIso : string) (u : Row) (formData : FormData) :
  exists p,
    (p = VNull \/ exists d, p = VStr ("+63" +:+ d) /\ allChars isDigit d = true)
    /\ forall done, exists tl,
         savePhone updateProfile nowIso u formData done
         = (done ++ UpdateProfile p nowIso (get u "id") :: tl)%list
         /\ forall e, In e tl -> forall a b c, e <> UpdateProfile a b c.
Proof.
  unfold savePhone.
  destruct (formatPhoneNumber_out (phone_number formData)) as [->|(d & -> & Hd)].
  - exists VNull. split; [by left|]. intros done. simpl.
    destruct (updateProfile VNull (get u "id")) as [err|]; eexists;
      (split; [by rewrite <- app_assoc|]);
      intros e [<-|[<-|[]]] a b c; discriminate.
  - exists (VStr ("+63" +:+ d)). split; [right; by exists d|]. intros done.
    rewrite startsWith_plus63.
    change (String.eqb ("+63" +:+ d) "") with false. simpl andb. cbv iota.
    destruct (updateProfile _ (get u "id")) as [err|]; eexists;
      (split; [by rewrite <- app_assoc|]);
      intros e [<-|[<-|[]]] a b c; discriminate.
Qed.
End ProfileFacts.

(** ** The cards of the player's schedule page *)

Module CardFacts.
Import JS Supabase Spec Text PlayerScheduleCards.

Lemma append_assoc (a b c : string) : (a +:+ b) +:+ c = a +:+ b +:+ c.
Proof.
  induction a as [|x a IH]; [done|].
  change (String x ((a +:+ b) +:+ c) = String x (a +:+ b +:+ c)). by rewrite IH.
Qed.

Lemma lacks_append c a b : lacks c (a +:+ b) = lacks c a && lacks c b.
Proof. apply allChars_append. Qed.

(** The remainder of an hour of the day. *)
Lemma displayHour_day h :
  (0 <= h <= 23)%Z ->
  displayHour (Int h) = (if h =? 0 then 12 else if h <=? 12 then h else h - 12)%Z.
Proof.
  intros Hh. unfold displayHour.
  rewrite Z.rem_mod_nonneg by lia.
  destruct (Z.eqb_spec h 0%Z) as [->|H0]; [reflexivity|].
  destruct (Z.leb_spec h 12%Z) as [Hle|Hgt].
  - destruct (Z.eq_dec h 12%Z) as [->|H12]; [reflexivity|].
    rewrite Z.mod_small by lia.
    destruct (Z.eqb_spec h 0%Z); [lia|reflexivity].
  - replace (h mod 12)%Z with (h - 12)%Z.
    + destruct (Z.eqb_spec (h - 12)%Z 0%Z); [lia|reflexivity].
    + apply Z.mod_unique with 1%Z; lia.
Qed.

(** The tags decide the [type] of an event, whatever the row holds. *)
Lemma type_tagPractice r : get (PlayerSchedules.tagPractice r) "type" = VStr "practice".
Proof. unfold get, PlayerSchedules.tagPractice. by simplify_map_eq. Qed.

Lemma type_tagMeeting r : get (PlayerSchedules.tagMeeting r) "type" = VStr "meeting".
Proof. unfold get, PlayerSchedules.tagMeeting. by simplify_map_eq. Qed.

Lemma type_tagGame team r : get (PlayerSchedules.tagGame team r) "type" = VStr "game".
Proof. unfold get, PlayerSchedules.tagGame. by simplify_map_eq. Qed.
End CardFacts.

(** ** Counting *)

Section CountFacts.
Context {A : Type}.

Lemma filter_length_Permutation (p : A -> bool) l l' :
  l ≡ₚ l' -> length (List.filter p l) = length (List.filter p l').
Proof.
  induction 1 as [|x l l' _ IH|x y l|l l' l'' _ IH1 _ IH2]; simpl.
  - done.
  - destruct (p x); simpl; by rewrite IH.
  - by destruct (p x), (p y).
  - by rewrite IH1.
Qed.

Lemma filter_length_all {B} (p : A -> bool) (f : B -> A) l :
  (forall x, p (f x) = true) -> length (List.filter p (map f l)) = length l.
Proof.
  intros H. induction l as [|x l IH]; simpl; [done|]. rewrite H. simpl. by rewrite IH.
Qed.

Lemma filter_length_none {B} (p : A -> bool) (f : B -> A) l :
  (forall x, p (f x) = false) -> length (List.filter p (map f l)) = 0%nat.
Proof.
  intros H. induction l as [|x l IH]; simpl; [done|]. by rewrite H.
Qed.
Lemma find_none_all (p : A -> bool) l :
  (forall x, In x l -> p x = false) -> find p l = None.
Proof.
  induction l as [|x l IH]; simpl; intros H; [done|].
  rewrite (H x) by (by left). apply IH. intros y Hy. apply H. by right.
Qed.
End CountFacts.

(** ** The groups of the coach's list *)

Module GroupFacts.
Import JS Supabase Spec CoachSchedules CoachScheduleList.

Lemma lookup_pushTo d date s (G : Groups) :
  lookupGroup d (pushTo date s G)
  = if String.eqb date d then Some (default [] (lookupGroup date G) ++ [s])%list
    else lookupGroup d G.
Proof.
  induction G as [|[d0 l] G IH]; simpl.
  - by destruct (String.eqb date d).
  - destruct (String.eqb d0 date) eqn:E0; simpl.
    + apply String.eqb_eq in E0. subst d0. by destruct (String.eqb date d).
    + rewrite IH. destruct (String.eqb date d) eqn:Ed; [|done].
      apply String.eqb_eq in Ed. subst d. by rewrite E0.
Qed.

Lemma keys_pushTo date s (G : Groups) k :
  In k (map fst (pushTo date s G)) <-> k = date \/ In k (map fst G).
Proof.
  induction G as [|[d0 l] G IH]; simpl; [intuition congruence|].
  destruct (String.eqb d0 date) eqn:E0; simpl.
  - apply String.eqb_eq in E0. subst d0. intuition congruence.
  - rewrite IH. tauto.
Qed.

Lemma NoDup_pushTo date s (G : Groups) :
  List.NoDup (map fst G) -> List.NoDup (map fst (pushTo date s G)).
Proof.
  induction G as [|[d0 l] G IH]; simpl; intros H.
  - constructor; [intros []|constructor].
  - inversion H as [|? ? Hnot Hnd]; subst.
    destruct (String.eqb d0 date) eqn:E0; simpl; [by constructor|].
    constructor; [|by apply IH].
    rewrite keys_pushTo. intros [->|Hin]; [|done].
    by rewrite String.eqb_refl in E0.
Qed.

Lemma concat_pushTo date s (G : Groups) :
  concat (map snd (pushTo date s G)) ≡ₚ s :: concat (map snd G).
Proof.
  induction G as [|[d0 l] G IH]; simpl; [done|].
  destruct (String.eqb d0 date); simpl.
  - rewrite <- app_assoc. simpl. symmetry. apply Permutation_middle.
  - rewrite IH. symmetry. apply Permutation_middle.
Qed.

Lemma lookup_In (G : Groups) d g :
  List.NoDup (map fst G) -> In (d, g) G -> lookupGroup d G = Some g.
Proof.
  induction G as [|[d0 l] G IH]; simpl; intros Hnd [].
  - injection H as -> ->. by rewrite String.eqb_refl.
  - inversion Hnd as [|? ? Hnot Hnd']; subst.
    destruct (String.eqb d0 d) eqn:E; [|by apply IH].
    apply String.eqb_eq in E. subst d0. destruct Hnot.
    change d with (fst (d, g)). by apply in_map.
Qed.

Lemma flat_lookup_keys (G : Groups) :
  List.NoDup (map fst G) ->
  flat_map (fun d => default [] (lookupGroup d G)) (map fst G) = concat (map snd G).
Proof.
  induction G as [|[d0 l] G IH]; simpl; intros Hnd; [done|].
  inversion Hnd as [|? ? Hnot Hnd']; subst.
  rewrite String.eqb_refl. simpl. f_equal.
  rewrite <- (IH Hnd'), !flat_map_concat_map. f_equal.
  apply map_ext_in. intros k Hk.
  destruct (String.eqb d0 k) eqn:E; [|done].
  apply String.eqb_eq in E. by subst.
Qed.

Lemma Permutation_flat_map_list {A B} (f : A -> list B) l l' :
  l ≡ₚ l' -> flat_map f l ≡ₚ flat_map f l'.
Proof.
  induction 1 as [|x l l' _ IH|x y l|l l' l'' _ IH1 _ IH2]; simpl.
  - done.
  - by rewrite IH.
  - apply Permutation_app_swap_app.
  - by rewrite IH1.
Qed.

Section Grouping.
Variable toDateString : value -> string.

Lemma groupedSchedules_snoc l x :
  groupedSchedules toDateString (l ++ [x])
  = pushTo (toDateString (start_time x)) x (groupedSchedules toDateString l).
Proof. unfold groupedSchedules. by rewrite foldl_app. Qed.

Lemma groupedSchedules_NoDup l : List.NoDup (map fst (groupedSchedules toDateString l)).
Proof.
  induction l as [|x l IH] using rev_ind; [constructor|].
  rewrite groupedSchedules_snoc. by apply NoDup_pushTo.
Qed.

Lemma groupedSchedules_concat l :
  concat (map snd (groupedSchedules toDateString l)) ≡ₚ l.
Proof.
  induction l as [|x l IH] using rev_ind; [done|].
  rewrite groupedSchedules_snoc, concat_pushTo, IH.
  apply Permutation_cons_append.
Qed.

(** The group of a day holds the events of that day, in list order; a day
    without events has no group. *)
Lemma groupedSchedules_lookup l d :
  lookupGroup d (groupedSchedules toDateString l)
  = match List.filter (fun s => String.eqb (toDateString (start_time s)) d) l with
    | [] => None
    | g => Some g
    end.
Proof.
  induction l as [|x l IH] using rev_ind; [done|].
  rewrite groupedSchedules_snoc, lookup_pushTo, List.filter_app. simpl.
  destruct (String.eqb (toDateString (start_time x)) d) eqn:E.
  - apply String.eqb_eq in E. rewrite E, IH.
    destruct (List.filter _ l); by simpl.
  - rewrite IH, app_nil_r. reflexivity.
Qed.

Lemma groupedSchedules_keys l k :
  In k (map fst (groupedSchedules toDateString l)) ->
  exists s, In s l /\ toDateString (start_time s) = k.
Proof.
  intros Hk. apply in_map_iff in Hk as ([d g] & <- & Hin). simpl.
  pose proof (lookup_In _ _ _ (groupedSchedules_NoDup l) Hin) as Hl.
  rewrite groupedSchedules_lookup in Hl.
  destruct (List.filter _ l) as [|s f] eqn:E; [done|].
  assert (Hs : In s (List.filter (fun s => String.eqb (toDateString (start_time s)) d) l))
    by (rewrite E; by left).
  apply List.filter_In in Hs as [Hs Hd]. apply String.eqb_eq in Hd. by exists s.
Qed.
End Grouping.
End GroupFacts.

(** ** Further properties of the pages *)

Section Extras.
Import JS Supabase Spec Text.

(** X1. [formatPhoneNumber] returns the empty string exactly for an input
    without digits; every other result is [+63] followed by digits only. *)
Theorem X1_formatPhoneNumber_shape (phone : string) :
  (PlayerProfileEdit.formatPhoneNumber phone = ""
   /\ keepChars isDigit phone = "")
  \/ (keepChars isDigit phone <> ""
      /\ exists d, PlayerProfileEdit.formatPhoneNumber phone = "+63" +:+ d
                   /\ allChars isDigit d = true).
Proof.
  destruct (keepChars isDigit phone) as [|a r] eqn:E.
  - left. split; [|done]. rewrite ProfileFacts.formatPhoneNumber_cases. cbv zeta. by rewrite E.
  - right. split; [done|].
    destruct (ProfileFacts.formatPhoneNumber_out phone) as [H|H]; [|done].
    rewrite ProfileFacts.formatPhoneNumber_cases in H. cbv zeta in H. rewrite E in H.
    destruct (Ascii.eqb "0" a); [done|]. by destruct (startsWith (String a r) "63").
Qed.

(** X2. [formatPhoneNumber] is a normal form: it reads the digits of its
    input only, and formatting a formatted number changes nothing. *)
Theorem X2_formatPhoneNumber_idempotent (phone : string) :
  PlayerProfileEdit.formatPhoneNumber (keepChars isDigit phone)
  = PlayerProfileEdit.formatPhoneNumber phone
  /\ PlayerProfileEdit.formatPhoneNumber (PlayerProfileEdit.formatPhoneNumber phone)
     = PlayerProfileEdit.formatPhoneNumber phone.
Proof.
  split; [apply ProfileFacts.formatPhoneNumber_keep|].
  destruct (ProfileFacts.formatPhoneNumber_out phone) as [->|(d & -> & Hd)]; [done|].
  by apply ProfileFacts.formatPhoneNumber_plus63.
Qed.

(** X3. The spellings of one number are formatted alike: for digits [d],
    the spellings [0d], [63d] and [+63d] all give [+63d]; and so does [d]
    itself when it is not empty and starts with neither [0] nor [63]. *)
Theorem X3_formatPhoneNumber_spellings (d : string) :
  allChars isDigit d = true ->
  PlayerProfileEdit.formatPhoneNumber ("0" +:+ d) = "+63" +:+ d
  /\ PlayerProfileEdit.formatPhoneNumber ("63" +:+ d) = "+63" +:+ d
  /\ PlayerProfileEdit.formatPhoneNumber ("+63" +:+ d) = "+63" +:+ d
  /\ (d <> "" -> startsWith d "0" = false -> startsWith d "63" = false ->
      PlayerProfileEdit.formatPhoneNumber d = "+63" +:+ d).
Proof.
  intros Hd. repeat apply conj.
  - rewrite ProfileFacts.formatPhoneNumber_digits; [reflexivity|].
    simpl. exact Hd.
  - by apply ProfileFacts.formatPhoneNumber_63.
  - by apply ProfileFacts.formatPhoneNumber_plus63.
  - intros Hne H0 H63. rewrite (ProfileFacts.formatPhoneNumber_digits _ Hd).
    destruct d as [|a r]; [done|].
    rewrite H63. rewrite (ProfileFacts.startsWith_String a r "0" ""),
      ProfileFacts.startsWith_nil, andb_true_r in H0.
    by rewrite H0.
Qed.

Lemma X3_formatPhoneNumber_spellings_witness :
  PlayerProfileEdit.formatPhoneNumber "09171234567" = "+639171234567"
  /\ PlayerProfileEdit.formatPhoneNumber "9171234567" = "+639171234567".
Proof.
  pose proof (X3_formatPhoneNumber_spellings "9171234567" eq_refl) as (H1 & _ & _ & H4).
  split; [exact H1|]. apply H4; [discriminate|reflexivity|reflexivity].
Defined.

(** X4. Whatever the form holds, a submission writes to the profile either
    [null] or [+63] followed by digits only, for the logged-in user; and
    the check of the phone number never stops a submission: once the e-mail
    step has passed, the profile update is always sent. *)
Theorem X4_handleSubmit_phone (user : option Row) (updateUser : string -> option string)
    (updateProfile : value -> value -> option PostgrestError) (nowIso : string)
    (formData : PlayerProfileEdit.FormData) :
  let effects := PlayerProfileEdit.handleSubmit user updateUser updateProfile nowIso formData in
  (forall p t uid,
     In (PlayerProfileEdit.UpdateProfile p t uid) effects ->
     (p = VNull \/ exists d, p = VStr ("+63" +:+ d) /\ allChars isDigit d = true)
     /\ t = nowIso
     /\ exists u, user = Some u /\ uid = get u "id")
  /\ (forall u,
        user = Some u ->
        get u "email" = VStr (PlayerProfileEdit.email formData)
        \/ updateUser (PlayerProfileEdit.email formData) = None ->
        exists p, In (PlayerProfileEdit.UpdateProfile p nowIso (get u "id")) effects).
Proof.
  intros effects. subst effects. unfold PlayerProfileEdit.handleSubmit.
  destruct user as [u|].
  2:{ split; [intros p t uid [H|[]]; discriminate|]. intros u [=]. }
  destruct (ProfileFacts.savePhone_sends updateProfile nowIso u formData) as (p & Hp & Hsave).
  split.
  - intros q t uid Hin.
    assert (Hsaved : forall done,
              (forall e, In e done -> forall a b c, e <> PlayerProfileEdit.UpdateProfile a b c) ->
              In (PlayerProfileEdit.UpdateProfile q t uid)
                (PlayerProfileEdit.savePhone updateProfile nowIso u formData done) ->
              q = p /\ t = nowIso /\ uid = get u "id").
    { intros done Hdone H. destruct (Hsave done) as (tl & Heq & Htl).
      rewrite Heq in H. apply in_app_or in H as [H|[H|H]].
      - by destruct (Hdone _ H q t uid).
      - by injection H as <- <- <-.
      - by destruct (Htl _ H q t uid). }
    assert (Hgoal : q = p /\ t = nowIso /\ uid = get u "id").
    { destruct (negb (strict_eq _ _)).
      - destruct (updateUser _) as [msg|].
        + destruct (includes msg "already registered");
            simpl in Hin; intuition discriminate.
        + refine (Hsaved _ _ Hin). intros e [<-|[<-|[]]] a b c; discriminate.
      - refine (Hsaved _ _ Hin). intros e []. }
    destruct Hgoal as (-> & -> & ->). repeat split; [exact Hp|by exists u].
  - intros u' [= <-] Hemail. exists p.
    assert (Hin : forall done,
              In (PlayerProfileEdit.UpdateProfile p nowIso (get u "id"))
                (PlayerProfileEdit.savePhone updateProfile nowIso u formData done)).
    { intros done. destruct (Hsave done) as (tl & -> & _).
      apply in_or_app. right. by left. }
    destruct (negb (strict_eq _ _)) eqn:E; [|apply Hin].
    destruct Hemail as [Hemail|Hemail].
    + apply negb_true_iff in E. unfold strict_eq in E.
      apply bool_decide_eq_false in E. by destruct E.
    + rewrite Hemail. apply Hin.
Qed.

Lemma X4_handleSubmit_phone_witness :
  exists p,
    In (PlayerProfileEdit.UpdateProfile p "2025-01-15T10:00:00.000Z" (VStr "c1"))
      (PlayerProfileEdit.handleSubmit (Some ExtraExample.coach1) (fun _ => None)
         (fun _ _ => None) "2025-01-15T10:00:00.000Z"
         (PlayerProfileEdit.mkForm "0917 123 4567" "coach@example.org")).
Proof.
  apply (proj2 (X4_handleSubmit_phone (Some ExtraExample.coach1) (fun _ => None)
                  (fun _ _ => None) "2025-01-15T10:00:00.000Z"
                  (PlayerProfileEdit.mkForm "0917 123 4567" "coach@example.org"))
           ExtraExample.coach1 eq_refl).
  left. vm_compute. reflexivity.
Defined.

(** X5. [handlePhoneChange] never touches the e-mail, and either leaves the
    form as it was or stores a phone number of at most 13 characters, each
    a digit or [+]. *)
Theorem X5_handlePhoneChange_invariant (value : string) (prev : PlayerProfileEdit.FormData) :
  let next := PlayerProfileEdit.handlePhoneChange value prev in
  PlayerProfileEdit.email next = PlayerProfileEdit.email prev
  /\ (next = prev
      \/ ((String.length (PlayerProfileEdit.phone_number next) <= 13)%nat
          /\ allChars isDigitOrPlus (PlayerProfileEdit.phone_number next) = true)).
Proof.
  intros next. subst next. unfold PlayerProfileEdit.handlePhoneChange.
  set (clean := keepChars isDigitOrPlus value).
  assert (Hclean : allChars isDigitOrPlus clean = true) by apply keepChars_all.
  set (formatted := if startsWith clean "+63" then _ else _).
  assert (Hf : allChars isDigitOrPlus formatted = true).
  { subst formatted.
    destruct (startsWith clean "+63"); [done|].
    destruct (startsWith clean "63"); [by rewrite allChars_append, Hclean|].
    destruct (startsWith clean "0" && _); [|done].
    rewrite allChars_append. clearbody clean.
    destruct clean as [|a r]; [done|]. simpl in Hclean.
    apply andb_true_iff in Hclean as [_ Hr]. exact Hr. }
  destruct (String.length formatted <=? 13)%nat eqn:E; simpl.
  - split; [done|]. right. split; [by apply Nat.leb_le|done].
  - split; [done|]. by left.
Qed.

(** X6. A national number typed as [0] and up to ten more digits is stored
    as [+63] and those digits, and that is what [formatPhoneNumber] returns
    for it at submission. *)
Theorem X6_handlePhoneChange_national (d : string) (prev : PlayerProfileEdit.FormData) :
  allChars isDigit d = true ->
  (String.length d <= 10)%nat ->
  PlayerProfileEdit.handlePhoneChange ("0" +:+ d) prev
  = PlayerProfileEdit.mkForm ("+63" +:+ d) (PlayerProfileEdit.email prev)
  /\ PlayerProfileEdit.formatPhoneNumber ("+63" +:+ d) = "+63" +:+ d.
Proof.
  intros Hd Hlen. split; [|by apply ProfileFacts.formatPhoneNumber_plus63].
  unfold PlayerProfileEdit.handlePhoneChange.
  assert (Hkeep : keepChars isDigitOrPlus ("0" +:+ d) = String "0" d).
  { change (keepChars isDigitOrPlus ("0" +:+ d)) with (String "0" (keepChars isDigitOrPlus d)).
    f_equal. apply keepChars_id. eapply allChars_impl; [|exact Hd].
    intros a Ha. unfold isDigitOrPlus. by rewrite Ha. }
  rewrite Hkeep.
  rewrite (ProfileFacts.startsWith_String "0" d "+" "63").
  rewrite (ProfileFacts.startsWith_String "0" d "6" "3").
  rewrite (ProfileFacts.startsWith_String "0" d "0" ""), ProfileFacts.startsWith_nil.
  change (Ascii.eqb "+" "0" && startsWith d "63") with false.
  change (Ascii.eqb "6" "0" && startsWith d "3") with false.
  cbv iota.
  assert (H11 : (String.length (String "0" d) <=? 11)%nat = true).
  { apply Nat.leb_le. simpl. lia. }
  rewrite H11. simpl andb. cbv iota.
  assert (H13 : (String.length ("+63" +:+ slice1 (String "0" d)) <=? 13)%nat = true).
  { apply Nat.leb_le.
    change (String.length ("+63" +:+ slice1 (String "0" d)))
      with (S (S (S (String.length d)))).
    lia. }
  rewrite H13. reflexivity.
Qed.

Lemma X6_handlePhoneChange_national_witness :
  PlayerProfileEdit.handlePhoneChange "09171234567" (PlayerProfileEdit.mkForm "" "a@b.c")
  = PlayerProfileEdit.mkForm "+639171234567" "a@b.c".
Proof.
  exact (proj1 (X6_handlePhoneChange_national "9171234567"
                  (PlayerProfileEdit.mkForm "" "a@b.c") eq_refl ltac:(vm_compute; lia))).
Defined.

(** X7. [formatTime] turns the 24-hour text [HH:MM] into the 12-hour
    clock: hour 0 is shown as 12 AM, hours 1 to 11 as AM, hour 12 as 12 PM
    and hours 13 to 23 as 1 to 11 PM; the minutes are copied. *)
Theorem X7_formatTime_clock (parseInt : string -> number) (hours minutes : string) (h : Z) :
  lacks ":" hours = true ->
  lacks ":" minutes = true ->
  parseInt hours = Int h ->
  (0 <= h <= 23)%Z ->
  PlayerScheduleCards.formatTime parseInt (Some (hours +:+ ":" +:+ minutes))
  = showInt (if h =? 0 then 12 else if h <=? 12 then h else h - 12)%Z
      +:+ ":" +:+ minutes +:+ " " +:+ (if (h <? 12)%Z then "AM" else "PM").
Proof.
  intros Hh Hm Hparse Hrange. unfold PlayerScheduleCards.formatTime.
  assert (Hne : String.eqb (hours +:+ ":" +:+ minutes) "" = false) by (by destruct hours).
  rewrite Hne.
  change (hours +:+ ":" +:+ minutes) with (hours +:+ String ":" minutes).
  rewrite (split_append_sep ":" hours minutes Hh), (split_none ":" minutes Hm).
  simpl head. simpl lookup. simpl default. rewrite Hparse.
  rewrite (CardFacts.displayHour_day h Hrange).
  unfold PlayerScheduleCards.period.
  destruct (Z.leb_spec 12%Z h), (Z.ltb_spec h 12%Z); try lia; reflexivity.
Qed.

Lemma X7_formatTime_clock_witness :
  PlayerScheduleCards.formatTime ExtraExample.parseDecimal (Some "14:05") = "2:05 PM".
Proof.
  exact (X7_formatTime_clock ExtraExample.parseDecimal "14" "05" 14
           eq_refl eq_refl eq_refl ltac:(lia)).
Defined.

(** X8. For a timestamp [dateThh:mm:rest], [getDateFromTimestamp] returns
    [date] and [getTimeFromTimestamp] returns [hh:mm], whatever follows
    the minutes. *)
Theorem X8_timestamp_parts (date hh mm rest : string) :
  lacks "T" date = true ->
  lacks "T" hh = true -> lacks ":" hh = true ->
  lacks "T" mm = true -> lacks ":" mm = true ->
  let timestamp := date +:+ "T" +:+ hh +:+ ":" +:+ mm +:+ ":" +:+ rest in
  PlayerScheduleCards.getDateFromTimestamp timestamp = date
  /\ PlayerScheduleCards.getTimeFromTimestamp timestamp = Some (hh +:+ ":" +:+ mm).
Proof.
  intros Hd HhT Hh HmT Hm timestamp. subst timestamp.
  unfold PlayerScheduleCards.getDateFromTimestamp, PlayerScheduleCards.getTimeFromTimestamp.
  change (date +:+ "T" +:+ hh +:+ ":" +:+ mm +:+ ":" +:+ rest)
    with (date +:+ String "T" (hh +:+ ":" +:+ mm +:+ ":" +:+ rest)).
  rewrite (split_append_sep "T" date _ Hd).
  split; [reflexivity|].
  assert (Hp : lacks "T" (hh +:+ ":" +:+ mm +:+ ":") = true).
  { rewrite !CardFacts.lacks_append, HhT, HmT. reflexivity. }
  destruct (split_append_head "T" _ rest Hp) as (r1 & tl & _ & Hsplit).
  rewrite !CardFacts.append_assoc in Hsplit. rewrite Hsplit.
  change (hh +:+ ":" +:+ mm +:+ ":" +:+ r1) with (hh +:+ String ":" (mm +:+ String ":" r1)).
  rewrite (split_append_sep ":" hh _ Hh), (split_append_sep ":" mm _ Hm).
  reflexivity.
Qed.

Lemma X8_timestamp_parts_witness :
  PlayerScheduleCards.getDateFromTimestamp "2025-01-15T10:00:00+00:00" = "2025-01-15"
  /\ PlayerScheduleCards.getTimeFromTimestamp "2025-01-15T10:00:00+00:00" = Some "10:00".
Proof.
  exact (X8_timestamp_parts "2025-01-15" "10" "00" "00+00:00"
           eq_refl eq_refl eq_refl eq_refl eq_refl).
Defined.

(** X9. A timestamp without the letter [T] (a date and a time separated by
    a space, say) has no time part: the card shows the whole text as the
    date and 'TBD' as the time. An hour that does not parse is shown as
    12 AM. *)
Theorem X9_formatTime_edges (parseInt : string -> number) :
  (forall timestamp,
     lacks "T" timestamp = true ->
     PlayerScheduleCards.getDateFromTimestamp timestamp = timestamp
     /\ PlayerScheduleCards.getTimeFromTimestamp timestamp = None
     /\ PlayerScheduleCards.formatTime parseInt
          (PlayerScheduleCards.getTimeFromTimestamp timestamp) = "TBD")
  /\ (forall hours minutes,
        lacks ":" hours = true -> lacks ":" minutes = true ->
        parseInt hours = NaN ->
        PlayerScheduleCards.formatTime parseInt (Some (hours +:+ ":" +:+ minutes))
        = "12:" +:+ minutes +:+ " AM").
Proof.
  split.
  - intros timestamp Ht.
    unfold PlayerScheduleCards.getDateFromTimestamp, PlayerScheduleCards.getTimeFromTimestamp.
    by rewrite (split_none "T" timestamp Ht).
  - intros hours minutes Hh Hm Hparse. unfold PlayerScheduleCards.formatTime.
    assert (Hne : String.eqb (hours +:+ ":" +:+ minutes) "" = false) by (by destruct hours).
    rewrite Hne.
    change (hours +:+ ":" +:+ minutes) with (hours +:+ String ":" minutes).
    rewrite (split_append_sep ":" hours minutes Hh), (split_none ":" minutes Hm).
    simpl head. simpl lookup. simpl default. by rewrite Hparse.
Qed.

Lemma X9_formatTime_edges_witness :
  PlayerScheduleCards.formatTime ExtraExample.parseDecimal
    (PlayerScheduleCards.getTimeFromTimestamp "2025-01-15 10:00:00+00") = "TBD".
Proof.
  exact (proj2 (proj2 (proj1 (X9_formatTime_edges ExtraExample.parseDecimal)
                         "2025-01-15 10:00:00+00" eq_refl))).
Defined.

(** X10. After [loadData] has found the player's team, the count on each
    filter button is the number of rows of the matching source, whatever
    the rows hold in a [type] column of their own, and the three counts add
    up to the count of all events. *)
Theorem X10_player_counts (Date_parse : string -> option Z)
    (getUser : AuthResponse) (supabase : Query -> PostgrestResponse)
    (team : Row) (st : PlayerSchedules.State) :
  PlayerSchedules.findTeam getUser supabase = inr (Some team) ->
  let out := PlayerSchedules.schedules
               (PlayerSchedules.loadData Date_parse getUser supabase st) in
  let practices := rowsOf (supabase (PlayerSchedules.practiceQuery (get team "id"))) in
  let meetings := rowsOf (supabase (PlayerSchedules.meetingQuery (get team "id"))) in
  let games := rowsOf (supabase (PlayerSchedules.gameQuery (get team "id"))) in
  PlayerScheduleCards.countOfType "practice" out = length practices
  /\ PlayerScheduleCards.countOfType "meeting" out = length meetings
  /\ PlayerScheduleCards.countOfType "game" out = length games
  /\ length out
     = (PlayerScheduleCards.countOfType "practice" out
        + PlayerScheduleCards.countOfType "meeting" out
        + PlayerScheduleCards.countOfType "game" out)%nat.
Proof.
  intros Hteam out practices meetings games.
  assert (Hcount : forall t,
            PlayerScheduleCards.countOfType t out
            = (length (List.filter (fun s => strict_eq (get s "type") (VStr t))
                         (map PlayerSchedules.tagPractice practices))
               + length (List.filter (fun s => strict_eq (get s "type") (VStr t))
                           (map PlayerSchedules.tagMeeting meetings))
               + length (List.filter (fun s => strict_eq (get s "type") (VStr t))
                           (map (PlayerSchedules.tagGame team) games)))%nat).
  { intros t. unfold PlayerScheduleCards.countOfType. subst out.
    rewrite (PlayerFacts.loadData_schedules _ _ _ _ _ Hteam).
    rewrite (filter_length_Permutation _ _ _ (sort_Permutation _ _)).
    unfold playerMerged. rewrite !List.filter_app, !length_app.
    fold practices meetings games. lia. }
  assert (Hlen : length out = (length practices + length meetings + length games)%nat).
  { subst out. rewrite (PlayerFacts.loadData_schedules _ _ _ _ _ Hteam).
    rewrite sort_length. unfold playerMerged. rewrite !length_app, !length_map.
    fold practices meetings games. lia. }
  assert (Hp : PlayerScheduleCards.countOfType "practice" out = length practices).
  { rewrite Hcount.
    rewrite filter_length_all by (intros r; by rewrite CardFacts.type_tagPractice).
    rewrite filter_length_none by (intros r; by rewrite CardFacts.type_tagMeeting).
    rewrite filter_length_none by (intros r; by rewrite CardFacts.type_tagGame).
    lia. }
  assert (Hm : PlayerScheduleCards.countOfType "meeting" out = length meetings).
  { rewrite Hcount.
    rewrite filter_length_none by (intros r; by rewrite CardFacts.type_tagPractice).
    rewrite filter_length_all by (intros r; by rewrite CardFacts.type_tagMeeting).
    rewrite filter_length_none by (intros r; by rewrite CardFacts.type_tagGame).
    lia. }
  assert (Hg : PlayerScheduleCards.countOfType "game" out = length games).
  { rewrite Hcount.
    rewrite filter_length_none by (intros r; by rewrite CardFacts.type_tagPractice).
    rewrite filter_length_none by (intros r; by rewrite CardFacts.type_tagMeeting).
    rewrite filter_length_all by (intros r; by rewrite CardFacts.type_tagGame).
    lia. }
  repeat apply conj; try done. lia.
Qed.

Lemma X10_player_counts_witness :
  PlayerScheduleCards.countOfType "practice"
    (PlayerSchedules.schedules
       (PlayerSchedules.loadData IsoDate.parse Example.loggedIn
          (Example.backend Example.db) PlayerSchedules.initial))
  = 2%nat.
Proof.
  rewrite (proj1 (X10_player_counts IsoDate.parse Example.loggedIn
                    (Example.backend Example.db) Example.team1 PlayerSchedules.initial
                    ltac:(vm_compute; reflexivity))).
  vm_compute. reflexivity.
Defined.

(** X11. A logged-in user whose profile does not have the role 'player' is
    turned away by [loadData]: the error says so, and neither the stored
    schedules nor the team nor the console change. *)
Theorem X11_loadData_not_a_player (Date_parse : string -> option Z)
    (getUser : AuthResponse) (supabase : Query -> PostgrestResponse)
    (u profile : Row) (st : PlayerSchedules.State) :
  authError getUser = None ->
  user getUser = Some u ->
  fst (single (supabase (from "user_profiles" |> select "*" |> eq "user_id" (get u "id"))))
  = Some profile ->
  get profile "role" <> VStr "player" ->
  let final := PlayerSchedules.loadData Date_parse getUser supabase st in
  PlayerSchedules.error final = Some "You are not authorized as a player."
  /\ PlayerSchedules.schedules final = PlayerSchedules.schedules st
  /\ PlayerSchedules.playerTeam final = PlayerSchedules.playerTeam st
  /\ PlayerSchedules.console final = PlayerSchedules.console st
  /\ PlayerSchedules.loading final = false.
Proof.
  intros Hauth Huser Hprofile Hrole final. subst final.
  unfold PlayerSchedules.loadData, PlayerSchedules.findTeam.
  rewrite Hauth, Huser, Hprofile.
  assert (E : strict_eq (get profile "role") (VStr "player") = false)
    by (by apply bool_decide_eq_false).
  rewrite E. simpl. done.
Qed.

Lemma X11_loadData_not_a_player_witness :
  PlayerSchedules.error
    (PlayerSchedules.loadData IsoDate.parse Example.loggedIn
       (Example.backend ExtraExample.coachDbProfiles) PlayerSchedules.initial)
  = Some "You are not authorized as a player.".
Proof.
  apply (X11_loadData_not_a_player IsoDate.parse Example.loggedIn
           (Example.backend ExtraExample.coachDbProfiles)
           Example.user1 ExtraExample.coachProfile PlayerSchedules.initial
           eq_refl eq_refl ltac:(vm_compute; reflexivity) ltac:(vm_compute; discriminate)).
Defined.

(** X12. For a player whose [team_id] is the id of no team in the answer
    of the teams query, and also when that query fails, [loadData] reports
    no error: it clears the stored schedules and the team. *)
Theorem X12_loadData_without_team (Date_parse : string -> option Z)
    (getUser : AuthResponse) (supabase : Query -> PostgrestResponse)
    (u profile : Row) (st : PlayerSchedules.State) :
  authError getUser = None ->
  user getUser = Some u ->
  fst (single (supabase (from "user_profiles" |> select "*" |> eq "user_id" (get u "id"))))
  = Some profile ->
  get profile "role" = VStr "player" ->
  (forall teams t,
     data (supabase (from "teams" |> select "*")) = Some teams ->
     In t teams -> get t "id" <> get profile "team_id") ->
  let final := PlayerSchedules.loadData Date_parse getUser supabase st in
  PlayerSchedules.schedules final = []
  /\ PlayerSchedules.playerTeam final = None
  /\ PlayerSchedules.error final = None
  /\ PlayerSchedules.console final = PlayerSchedules.console st
  /\ PlayerSchedules.loading final = false.
Proof.
  intros Hauth Huser Hprofile Hrole Hteams final. subst final.
  unfold PlayerSchedules.loadData.
  assert (Hfind : PlayerSchedules.findTeam getUser supabase = inr None).
  { unfold PlayerSchedules.findTeam. rewrite Hauth, Huser, Hprofile, Hrole.
    change (negb (strict_eq (VStr "player") (VStr "player"))) with false. cbv iota.
    destruct (data (supabase _)) as [teams|] eqn:E; [|done].
    f_equal. apply find_none_all. intros t Ht.
    apply bool_decide_eq_false. by apply (Hteams teams). }
  rewrite Hfind. done.
Qed.

Lemma X12_loadData_without_team_witness :
  PlayerSchedules.schedules
    (PlayerSchedules.loadData IsoDate.parse Example.loggedIn
       (Example.backend (Example.without "teams" Example.db)) PlayerSchedules.initial)
  = [].
Proof.
  apply (X12_loadData_without_team IsoDate.parse Example.loggedIn
           (Example.backend (Example.without "teams" Example.db))
           Example.user1 Example.profile1 PlayerSchedules.initial
           eq_refl eq_refl ltac:(vm_compute; reflexivity) ltac:(vm_compute; reflexivity)).
  intros teams t H. vm_compute in H. discriminate.
Defined.

(** X13. Grouping by day loses and repeats nothing: the cards of the coach
    page, taken day by day in the order of the page, are a rearrangement of
    the filtered schedules; no day has two headings; the group of a day
    holds the schedules of that day in their list order, and a day without
    schedules has no group. *)
Theorem X13_grouping_partitions (Date_parse : string -> option Z)
    (toDateString : value -> string)
    (filteredSchedules : list CoachSchedules.CombinedSchedule) :
  CoachScheduleList.renderedSchedules Date_parse toDateString filteredSchedules
    ≡ₚ filteredSchedules
  /\ List.NoDup (CoachScheduleList.sortedDates Date_parse toDateString filteredSchedules)
  /\ (forall d,
        CoachScheduleList.lookupGroup d
          (CoachScheduleList.groupedSchedules toDateString filteredSchedules)
        = match List.filter
                  (fun s => String.eqb (toDateString (CoachSchedules.start_time s)) d)
                  filteredSchedules with
          | [] => None
          | g => Some g
          end).
Proof.
  pose proof (GroupFacts.groupedSchedules_NoDup toDateString filteredSchedules) as Hnd.
  repeat apply conj.
  - unfold CoachScheduleList.renderedSchedules, CoachScheduleList.sortedDates.
    rewrite (GroupFacts.Permutation_flat_map_list _ _ _ (sort_Permutation _ _)).
    rewrite (GroupFacts.flat_lookup_keys _ Hnd).
    apply GroupFacts.groupedSchedules_concat.
  - unfold CoachScheduleList.sortedDates.
    eapply Permutation_NoDup; [symmetry; apply sort_Permutation|exact Hnd].
  - apply GroupFacts.groupedSchedules_lookup.
Qed.

(** X14. When the heading of every schedule parses as a date, the headings
    of the coach page come in ascending order of that date. *)
Theorem X14_sortedDates_sorted (Date_parse : string -> option Z)
    (toDateString : value -> string)
    (filteredSchedules : list CoachSchedules.CombinedSchedule) :
  forallb (fun s => hasTime Date_parse (toDateString (CoachSchedules.start_time s)))
    filteredSchedules = true ->
  StronglySorted (timeLe Date_parse)
    (CoachScheduleList.sortedDates Date_parse toDateString filteredSchedules).
Proof.
  intros H. rewrite forallb_forall in H.
  unfold CoachScheduleList.sortedDates.
  apply (sort_sorted Date_parse).
  apply List.Forall_forall. intros k Hk.
  destruct (GroupFacts.groupedSchedules_keys _ _ _ Hk) as (s & Hs & <-).
  by apply H.
Qed.

Lemma X14_sortedDates_sorted_witness :
  CoachScheduleList.sortedDates ExtraExample.parseDay ExtraExample.dayOf
    (map CoachSchedules.ofPractice [Example.practiceC; Example.practiceA; Example.practiceB])
  = ["2025-01-15"; "2025-01-16"]
  /\ StronglySorted (timeLe ExtraExample.parseDay)
       (CoachScheduleList.sortedDates ExtraExample.parseDay ExtraExample.dayOf
          (map CoachSchedules.ofPractice
             [Example.practiceC; Example.practiceA; Example.practiceB])).
Proof.
  split; [vm_compute; reflexivity|].
  apply (X14_sortedDates_sorted ExtraExample.parseDay ExtraExample.dayOf).
  vm_compute. reflexivity.
Defined.

(** X15. [handleDeleteSchedule] deletes nothing unless the coach confirms
    and the schedule is a practice or a meeting; what it deletes is the row
    with the given id in [practice_schedules] or [meeting_schedules], once.
    For every other type, a game included, it only shows 'Cannot delete
    this type of schedule.' and leaves the page as it was. *)
Theorem X15_delete_only_own_schedules (Date_parse : string -> option Z) (confirm : bool)
    (delete : string -> string -> option PostgrestError)
    (supabase : Query -> PostgrestResponse) (coachTeamId : option string)
    (scheduleId scheduleType : string) (st : CoachSchedules.State) :
  let result := CoachScheduleList.handleDeleteSchedule Date_parse confirm delete supabase
                  coachTeamId scheduleId scheduleType st in
  (forall table id,
     In (CoachScheduleList.DeleteFrom table id) (snd result) ->
     confirm = true /\ id = scheduleId
     /\ ((scheduleType = "practice" /\ table = "practice_schedules")
         \/ (scheduleType = "meeting" /\ table = "meeting_schedules")))
  /\ (length (List.filter
                (fun e => match e with CoachScheduleList.DeleteFrom _ _ => true | _ => false end)
                (snd result)) <= 1)%nat
  /\ (confirm = false -> result = (st, []))
  /\ (confirm = true -> scheduleType <> "practice" -> scheduleType <> "meeting" ->
      result = (st, [CoachScheduleList.Alert "Cannot delete this type of schedule."])).
Proof.
  intros result. subst result. unfold CoachScheduleList.handleDeleteSchedule.
  destruct confirm; simpl.
  2:{ repeat apply conj; try done. lia. }
  unfold CoachScheduleList.tableOfType.
  destruct (String.eqb scheduleType "practice") eqn:Ep.
  { apply String.eqb_eq in Ep. subst scheduleType.
    destruct (delete "practice_schedules" scheduleId); simpl;
      (repeat apply conj; [|lia|done|done]);
      intros table id [[= <- <-]|[H|[]]]; try discriminate; tauto. }
  destruct (String.eqb scheduleType "meeting") eqn:Em.
  { apply String.eqb_eq in Em. subst scheduleType.
    destruct (delete "meeting_schedules" scheduleId); simpl;
      (repeat apply conj; [|lia|done|done]);
      intros table id [[= <- <-]|[H|[]]]; try discriminate; tauto. }
  simpl. repeat apply conj; try done; [|lia].
  intros table id [H|[]]. discriminate.
Qed.

Lemma X15_delete_only_own_schedules_witness :
  CoachScheduleList.handleDeleteSchedule IsoDate.parse true (fun _ _ => None)
    (Example.backend Example.coachDb) (Some "T1") "cg1" "game" CoachSchedules.initial
  = (CoachSchedules.initial,
     [CoachScheduleList.Alert "Cannot delete this type of schedule."]).
Proof.
  apply (proj2 (proj2 (proj2 (X15_delete_only_own_schedules IsoDate.parse true
           (fun _ _ => None) (Example.backend Example.coachDb) (Some "T1") "cg1" "game"
           CoachSchedules.initial))));
    [reflexivity|discriminate|discriminate].
Defined.

(** X16. A delete that the backend accepts is always announced as
    'Schedule deleted successfully!', also when the list could not be
    fetched again afterwards; a delete that the backend rejects is logged
    and announced as failed, and the list is not fetched again. *)
Theorem X16_delete_outcome (Date_parse : string -> option Z)
    (delete : string -> string -> option PostgrestError)
    (supabase : Query -> PostgrestResponse) (coachTeamId : option string)
    (scheduleId scheduleType table : string) (st : CoachSchedules.State) :
  CoachScheduleList.tableOfType scheduleType = Some table ->
  let result := CoachScheduleList.handleDeleteSchedule Date_parse true delete supabase
                  coachTeamId scheduleId scheduleType st in
  (delete table scheduleId = None ->
   snd result = [CoachScheduleList.DeleteFrom table scheduleId;
                 CoachScheduleList.Alert "Schedule deleted successfully!"]
   /\ (forall teamId, coachTeamId = Some teamId -> teamId <> "" ->
       fst result = CoachSchedules.fetchAllSchedules Date_parse supabase teamId st))
  /\ (forall err,
        delete table scheduleId = Some err ->
        snd result = [CoachScheduleList.DeleteFrom table scheduleId;
                      CoachScheduleList.Alert "Failed to delete schedule. Please try again."]
        /\ CoachSchedules.schedules (fst result) = CoachSchedules.schedules st
        /\ CoachSchedules.console (fst result)
           = (CoachSchedules.console st ++ [ConsoleError "Error deleting schedule:" err])%list).
Proof.
  intros Htable result. subst result. unfold CoachScheduleList.handleDeleteSchedule.
  simpl negb. cbv iota. rewrite Htable. split.
  - intros Hok. rewrite Hok. simpl. split; [done|].
    intros teamId -> Hne. apply String.eqb_neq in Hne. by rewrite Hne.
  - intros err Herr. rewrite Herr. done.
Qed.

(** The practice table is gone by the time of the refetch: the page is in
    the error state, and the delete is announced as done. *)
Lemma X16_delete_outcome_witness :
  let result := CoachScheduleList.handleDeleteSchedule IsoDate.parse true (fun _ _ => None)
                  (Example.backend (Example.without "practice_schedules" Example.coachDb))
                  (Some "T1") "p1" "practice" CoachSchedules.initial in
  snd result = [CoachScheduleList.DeleteFrom "practice_schedules" "p1";
                CoachScheduleList.Alert "Schedule deleted successfully!"]
  /\ CoachSchedules.error (fst result) = Some "Failed to load schedules.".
Proof.
  cbv zeta.
  destruct (proj1 (X16_delete_outcome IsoDate.parse (fun _ _ => None)
                     (Example.backend (Example.without "practice_schedules" Example.coachDb))
                     (Some "T1") "p1" "practice" "practice_schedules" CoachSchedules.initial
                     eq_refl) eq_refl) as [Heffects Hstate].
  split; [exact Heffects|].
  rewrite (Hstate "T1" eq_refl ltac:(discriminate)). vm_compute. reflexivity.
Defined.

(** X17. Once the practice query of the coach page has succeeded, the
    three counts of the page are the numbers of rows of the three sources,
    and they add up to the total. *)
Theorem X17_coach_counts (Date_parse : string -> option Z)
    (supabase : Query -> PostgrestResponse) (teamId : string)
    (st : CoachSchedules.State) (P : list Row) :
  supabase (CoachSchedules.practiceQuery teamId) = Success P ->
  let out := CoachSchedules.schedules
               (CoachSchedules.fetchAllSchedules Date_parse supabase teamId st) in
  let meetings := rowsOf (supabase (CoachSchedules.meetingQuery teamId)) in
  let games := rowsOf (supabase (CoachSchedules.gameQuery teamId)) in
  CoachScheduleList.countOfType "practice" out = length P
  /\ CoachScheduleList.countOfType "meeting" out = length meetings
  /\ CoachScheduleList.countOfType "game" out = length games
  /\ length out = (length P + length meetings + length games)%nat.
Proof.
  intros HP out meetings games.
  assert (Hcount : forall t,
            CoachScheduleList.countOfType t out
            = (length (List.filter (fun s => String.eqb (CoachSchedules.type s) t)
                         (map CoachSchedules.ofPractice P))
               + length (List.filter (fun s => String.eqb (CoachSchedules.type s) t)
                           (map CoachSchedules.ofMeeting meetings))
               + length (List.filter (fun s => String.eqb (CoachSchedules.type s) t)
                           (map CoachSchedules.ofGame games)))%nat).
  { intros t. unfold CoachScheduleList.countOfType. subst out.
    rewrite (CoachFacts.fetchAllSchedules_schedules _ _ _ _ _ HP).
    rewrite (filter_length_Permutation _ _ _ (sort_Permutation _ _)).
    unfold coachMerged. rewrite !List.filter_app, !length_app.
    fold meetings games. change (rowsOf (Success P)) with P. lia. }
  repeat apply conj.
  - rewrite Hcount, filter_length_all, !filter_length_none by done. lia.
  - rewrite Hcount. rewrite (filter_length_none _ CoachSchedules.ofPractice) by done.
    rewrite (filter_length_all _ CoachSchedules.ofMeeting) by done.
    rewrite (filter_length_none _ CoachSchedules.ofGame) by done. lia.
  - rewrite Hcount. rewrite (filter_length_none _ CoachSchedules.ofPractice) by done.
    rewrite (filter_length_none _ CoachSchedules.ofMeeting) by done.
    rewrite (filter_length_all _ CoachSchedules.ofGame) by done. lia.
  - subst out. rewrite (CoachFacts.fetchAllSchedules_schedules _ _ _ _ _ HP).
    rewrite sort_length. unfold coachMerged. rewrite !length_app, !length_map.
    fold meetings games. change (rowsOf (Success P)) with P. lia.
Qed.

Lemma X17_coach_counts_witness :
  CoachScheduleList.countOfType "game"
    (CoachSchedules.schedules
       (CoachSchedules.fetchAllSchedules IsoDate.parse (Example.backend Example.coachDb)
          "T1" CoachSchedules.initial))
  = 1%nat.
Proof.
  rewrite (proj1 (proj2 (proj2 (X17_coach_counts IsoDate.parse
             (Example.backend Example.coachDb) "T1" CoachSchedules.initial
             [Example.practiceA; Example.practiceB] ltac:(vm_compute; reflexivity))))).
  vm_compute. reflexivity.
Defined.

(** X18. On the teammates page a failed players query is not swallowed:
    [loadData] reports 'Error loading teammates: ' with the message and
    keeps the list it had; a query that succeeds replaces the list by its
    rows and leaves no error. *)
Theorem X18_teammates_error_surfaces (getUser : AuthResponse)
    (supabase : Query -> PostgrestResponse) (team : Row) (st : PlayerTeammates.State) :
  PlayerSchedules.findTeam getUser supabase = inr (Some team) ->
  let final := PlayerTeammates.loadData getUser supabase st in
  (forall e,
     supabase (PlayerTeammates.playersQuery (get team "id")) = Failure e ->
     PlayerTeammates.error final = Some ("Error loading teammates: " +:+ message e)
     /\ PlayerTeammates.teammates final = PlayerTeammates.teammates st)
  /\ (forall players,
        supabase (PlayerTeammates.playersQuery (get team "id")) = Success players ->
        PlayerTeammates.error final = None
        /\ PlayerTeammates.teammates final = players)
  /\ PlayerTeammates.playerTeam final = Some team
  /\ PlayerTeammates.loading final = false.
Proof.
  intros Hteam final. subst final. unfold PlayerTeammates.loadData. rewrite Hteam.
  repeat apply conj; try done.
  - intros e He. by rewrite He.
  - intros players Hp. by rewrite Hp.
  - by destruct (supabase _).
Qed.

Lemma X18_teammates_error_surfaces_witness :
  PlayerTeammates.teammates
    (PlayerTeammates.loadData Example.loggedIn (Example.backend ExtraExample.teamDb)
       PlayerTeammates.initial)
  = [Example.profile1; ExtraExample.profile2].
Proof.
  apply (proj1 (proj2 (X18_teammates_error_surfaces Example.loggedIn
           (Example.backend ExtraExample.teamDb) Example.team1 PlayerTeammates.initial
           ltac:(vm_compute; reflexivity)))).
  vm_compute. reflexivity.
Defined.

(** X19. The dashboard never lists the logged-in player among the
    teammates: the list is the answer of the team's players query, in its
    order, without every row whose [user_id] is the id of the user. *)
Theorem X19_dashboard_teammates_exclude_self (Date_parse : string -> option Z)
    (getUser : AuthResponse) (supabase : Query -> PostgrestResponse)
    (currentDate : string) (u team : Row) (st : PlayerDashboard.State) :
  PlayerDashboard.findTeam getUser supabase = Some (u, team) ->
  let final := PlayerDashboard.fetchPlayerData Date_parse getUser supabase currentDate st in
  let players := rowsOf (supabase (from "user_profiles" |> select "*"
                                     |> eq "role" (VStr "player")
                                     |> eq "team_id" (get team "id"))) in
  (forall p, In p (PlayerDashboard.teammates final) <->
             In p players /\ get p "user_id" <> get u "id")
  /\ sublist (PlayerDashboard.teammates final) players
  /\ PlayerDashboard.playerTeam final = Some team.
Proof.
  intros Hteam final players. subst final. unfold PlayerDashboard.fetchPlayerData.
  rewrite Hteam. simpl.
  assert (Heq : match data (supabase (from "user_profiles" |> select "*"
                                        |> eq "role" (VStr "player")
                                        |> eq "team_id" (get team "id"))) with
                | Some ps =>
                    List.filter (fun player => negb (strict_eq (get player "user_id") (get u "id"))) ps
                | None => []
                end
                = List.filter (fun player => negb (strict_eq (get player "user_id") (get u "id")))
                    players).
  { subst players. unfold rowsOf. by destruct (data _). }
  rewrite Heq. repeat apply conj.
  - intros p. rewrite List.filter_In, negb_true_iff. unfold strict_eq.
    by rewrite bool_decide_eq_false.
  - apply sublist_List_filter.
  - done.
Qed.

Lemma X19_dashboard_teammates_exclude_self_witness :
  ~ In Example.profile1
      (PlayerDashboard.teammates
         (PlayerDashboard.fetchPlayerData IsoDate.parse Example.loggedIn
            (Example.backend ExtraExample.teamDb) "2025-01-01T00:00:00Z"
            PlayerDashboard.initial)).
Proof.
  intros Hin.
  apply (proj1 (X19_dashboard_teammates_exclude_self IsoDate.parse Example.loggedIn
                  (Example.backend ExtraExample.teamDb) "2025-01-01T00:00:00Z"
                  Example.user1 Example.team1 PlayerDashboard.initial
                  ltac:(vm_compute; reflexivity)) Example.profile1) in Hin.
  destruct Hin as [_ Hne]. apply Hne. vm_compute. reflexivity.
Defined.

(** X20. A dashboard visitor who is not logged in, has no profile, or has a
    profile without a team gets no error and no data: [fetchPlayerData]
    only ends the loading state, whatever the other tables hold. *)
Theorem X20_dashboard_without_team (Date_parse : string -> option Z)
    (getUser : AuthResponse) (supabase : Query -> PostgrestResponse)
    (currentDate : string) (st : PlayerDashboard.State) :
  (user getUser = None
   \/ exists u,
        user getUser = Some u
        /\ let profile := fst (single (supabase (from "user_profiles" |> select "*"
                                                   |> eq "user_id" (get u "id")))) in
           (profile = None
            \/ exists playerProfile,
                 profile = Some playerProfile
                 /\ truthy (get playerProfile "team_id") = false)) ->
  PlayerDashboard.fetchPlayerData Date_parse getUser supabase currentDate st
  = PlayerDashboard.setLoading false st.
Proof.
  intros H. unfold PlayerDashboard.fetchPlayerData.
  assert (Hnone : PlayerDashboard.findTeam getUser supabase = None).
  { unfold PlayerDashboard.findTeam.
    destruct H as [->|(u & -> & [->|(playerProfile & -> & ->)])]; reflexivity. }
  by rewrite Hnone.
Qed.

Lemma X20_dashboard_without_team_witness :
  PlayerDashboard.fetchPlayerData IsoDate.parse Example.loggedIn
    (Example.backend (Example.without "user_profiles" Example.db))
    "2025-01-01T00:00:00Z" PlayerDashboard.initial
  = PlayerDashboard.setLoading false PlayerDashboard.initial.
Proof.
  apply X20_dashboard_without_team.
  right. exists Example.user1. split; [reflexivity|].
  left. vm_compute. reflexivity.
Defined.

End Extras.
